(** * Task/group mini-app: navigation state machine, gateway error
      normalisation and screen controllers of [src/main.tsx]

    The development is a shallow embedding of the client logic of the
    React application in [src/main.tsx]:

    - [Js]: the few JavaScript notions the code relies on (truthiness of
      [string | null], settled promises, thrown errors);
    - [Gateway]: [apiFetch]'s decoding of the HTTP response;
    - [PageAdminCreateTask], [PageAdminCreateGroup]: the [handleSubmit]
      of the two creation forms;
    - [Controller]: the fetch-on-dependency-change pattern of the page
      components, instantiated as [PageTaskDetails] and [PageMyTasks];
    - [Nav]: the state of the [App] component, its handlers
      ([handleNavigate], [handleBack], [handleSelectTask],
      [handleSelectGroup]), [renderPage], the two start-up effects and
      the events that drive them;
    - [Spec]: the screen-resolution rules as the specification words them.

    React state is modelled by explicit state passing: a handler is a
    function from the component state to the state after the batched
    [setX] calls of the handler have been applied. *)

From stdpp Require Import base strings gmap list pretty.

Open Scope string_scope.

Set Warnings "-register-all".

(** ** JavaScript notions *)

Module Js.

(** [if (s)] on a value of type [string | null]: [null] and the empty
    string are falsy, every other string is truthy. *)
Definition truthy (v : option string) : bool :=
  match v with
  | None => false
  | Some s => negb (String.eqb s "")
  end.

(** [if (v) { yes(v) } else { no }] with [v : string | null]. *)
Definition if_truthy {A : Type} (v : option string) (yes : string -> A) (no : A) : A :=
  match v with
  | Some s => if String.eqb s "" then no else yes s
  | None => no
  end.

(** [a || b] on two strings. *)
Definition or_else (a b : string) : string :=
  if String.eqb a "" then b else a.

(** The errors the modelled code can observe.  [Error m] is
    [new Error(m)]; the other constructors are raised by the platform. *)
Inductive JsError : Type :=
  | Error (message : string)
  | SyntaxError (message : string)
  | TypeError (message : string).

(** [e.message] *)
Definition message (e : JsError) : string :=
  match e with
  | Error m | SyntaxError m | TypeError m => m
  end.

(** A settled promise, i.e. what [await p] produces: a value or a throw. *)
Inductive Settled (A : Type) : Type :=
  | Fulfilled (value : A)
  | Rejected (reason : JsError).
Global Arguments Fulfilled {A} value.
Global Arguments Rejected {A} reason.

End Js.

(** ** Data model *)

Inductive UserRole : Type := role_user | role_admin.

Record User : Type := mkUser {
  user_id : string;
  user_name : string;
  role : UserRole
}.

Inductive Page : Type :=
  | myTasks
  | taskDetails
  | myGroups
  | groupDetails
  | adminCreateTask
  | adminCreateGroup
  | adminAllGroups.

Global Instance Page_eq_dec : EqDecision Page.
Proof. solve_decision. Defined.

Global Instance UserRole_eq_dec : EqDecision UserRole.
Proof. solve_decision. Defined.

(** ** The API gateway: [apiFetch] *)

Module Gateway.

Import Js.

(** The value of a [FormData] entry: a string, or a [File] (for the
    [type="file"] input), of which only the name is kept. *)
Inductive FormDataEntryValue : Type :=
  | FormString (s : string)
  | FormFile (filename : string).

(** The named remote operations of [createApiService]. *)
Inductive ApiCall : Type :=
  | fetchUserData
  | fetchUserTasks
  | fetchTaskDetails (taskId : string)
  | fetchUserGroups
  | fetchGroupDetails (groupId : string)
  | createTask (data : gmap string string)
  | createGroup (data : list (string * FormDataEntryValue))
  | fetchAllGroups.

(** Decoded JSON values.  Numbers are restricted to integers, which is
    all the bodies considered here contain. *)
Inductive Json : Type :=
  | JNull
  | JBool (b : bool)
  | JNumber (n : Z)
  | JString (s : string)
  | JArray (items : list Json)
  | JObject (fields : list (string * Json)).

(** The double-quote character, as a string. *)
Definition dquote : string := String (Ascii.ascii_of_nat 34) EmptyString.

Definition hex_digit (n : nat) : string :=
  String.substring n 1 "0123456789abcdef".

(** The escape [JSON.stringify] writes for one character of a string. *)
Definition escape_char (c : Ascii.ascii) : string :=
  let n := Ascii.nat_of_ascii c in
  if Nat.eqb n 34 then String (Ascii.ascii_of_nat 92) dquote
  else if Nat.eqb n 92 then String c (String c EmptyString)
  else if Nat.eqb n 8 then String (Ascii.ascii_of_nat 92) "b"
  else if Nat.eqb n 9 then String (Ascii.ascii_of_nat 92) "t"
  else if Nat.eqb n 10 then String (Ascii.ascii_of_nat 92) "n"
  else if Nat.eqb n 12 then String (Ascii.ascii_of_nat 92) "f"
  else if Nat.eqb n 13 then String (Ascii.ascii_of_nat 92) "r"
  else if Nat.ltb n 32 then
    String (Ascii.ascii_of_nat 92) ("u00" ++ hex_digit (n / 16) ++ hex_digit (n mod 16))
  else String c EmptyString.

Fixpoint escape (s : string) : string :=
  match s with
  | EmptyString => EmptyString
  | String c rest => escape_char c ++ escape rest
  end.

Definition quote (s : string) : string := dquote ++ escape s ++ dquote.

(** [JSON.stringify(v)] *)
Fixpoint JSON_stringify (v : Json) : string :=
  match v with
  | JNull => "null"
  | JBool true => "true"
  | JBool false => "false"
  | JNumber n => pretty n
  | JString s => quote s
  | JArray items => "[" ++ String.concat "," (map JSON_stringify items) ++ "]"
  | JObject fields =>
      "{" ++ String.concat ","
               (map (fun kv => quote (fst kv) ++ ":" ++ JSON_stringify (snd kv)) fields)
          ++ "}"
  end.

(** String conversion of a value interpolated in a template literal. *)
Fixpoint ToString (v : Json) : string :=
  match v with
  | JNull => "null"
  | JBool true => "true"
  | JBool false => "false"
  | JNumber n => pretty n
  | JString s => s
  | JArray items =>
      String.concat ","
        (map (fun x => match x with JNull => "" | _ => ToString x end) items)
  | JObject _ => "[object Object]"
  end.

(** Truthiness of a decoded value. *)
Definition ToBoolean (v : Json) : bool :=
  match v with
  | JNull => false
  | JBool b => b
  | JNumber n => negb (Z.eqb n 0)
  | JString s => negb (String.eqb s "")
  | JArray _ | JObject _ => true
  end.

(** Own property lookup on a decoded object (the keys of a decoded
    object are distinct). *)
Fixpoint get_field (k : string) (fields : list (string * Json)) : option Json :=
  match fields with
  | [] => None
  | (k', v) :: rest => if String.eqb k k' then Some v else get_field k rest
  end.

(** [errorData.message]: [undefined] (here [None]) on every value
    without such a property, a [TypeError] on [null]. *)
Definition get_message (errorData : Json) : Settled (option Json) :=
  match errorData with
  | JNull => Rejected (TypeError "Cannot read properties of null (reading 'message')")
  | JObject fields => Fulfilled (get_field "message" fields)
  | _ => Fulfilled None
  end.

(** The body of an HTTP response as the Fetch API presents it.
    [JsonText text value]: the bytes [text], which [JSON.parse] decodes
    to [value]; [PlainText text]: bytes that [JSON.parse] rejects;
    [NoBody]: a null body. *)
Inductive Body : Type :=
  | NoBody
  | JsonText (text : string) (value : Json)
  | PlainText (text : string).

(** A [Response] object.  [bodyUsed] is the only mutable part: reading
    a non-null body through [json()] or [text()] disturbs its stream. *)
Record Response : Type := mkResponse {
  status : nat;
  statusText : string;
  contentType : option string;
  body : Body;
  bodyUsed : bool
}.

(** [response.ok] *)
Definition ok (r : Response) : bool :=
  Nat.leb 200 (status r) && Nat.leb (status r) 299.

(** Code that runs against one [Response] object: it may read and
    disturb the body, and either returns or throws. *)
Definition M (A : Type) : Type := Response -> Settled A * Response.

Definition ret {A : Type} (a : A) : M A := fun r => (Fulfilled a, r).

Definition throw {A : Type} (e : JsError) : M A := fun r => (Rejected e, r).

Definition bind {A B : Type} (m : M A) (k : A -> M B) : M B :=
  fun r =>
    match m r with
    | (Fulfilled a, r') => k a r'
    | (Rejected e, r') => (Rejected e, r')
    end.

(** [try { m } catch { handler }] (a [catch] without binding): every
    exception raised by [m], whatever its origin, runs [handler]. *)
Definition try_catch {A : Type} (m : M A) (handler : M A) : M A :=
  fun r =>
    match m r with
    | (Fulfilled a, r') => (Fulfilled a, r')
    | (Rejected _, r') => handler r'
    end.

Definition get : M Response := fun r => (Fulfilled r, r).

Definition lift {A : Type} (x : Settled A) : M A := fun r => (x, r).

Notation "x <- m ;; k" := (bind m (fun x => k))
  (at level 100, m at next level, right associativity).

Definition body_used_message : string :=
  "Failed to execute 'text' on 'Response': body stream already read".

(** The message of the parser's [SyntaxError] depends on the engine and
    on the text; this string only stands for it.  Nothing below relies on
    it: on a non-success response the exception is caught, and on a
    success response only the class of the error is stated. *)
Definition invalid_json_message : string := "Unexpected token in JSON".

(** Marks a non-null body as read. *)
Definition disturb (r : Response) : Response :=
  {| status := status r;
     statusText := statusText r;
     contentType := contentType r;
     body := body r;
     bodyUsed := match body r with NoBody => false | _ => true end |}.

(** [await response.json()] per the Fetch Standard: rejects with a
    [TypeError] when the body was already read; otherwise reads the
    whole body and parses it. *)
Definition json : M Json :=
  fun r =>
    if bodyUsed r then (Rejected (TypeError body_used_message), r)
    else
      match body r with
      | JsonText _ v => (Fulfilled v, disturb r)
      | PlainText _ | NoBody => (Rejected (SyntaxError invalid_json_message), disturb r)
      end.

(** [await response.text()] per the Fetch Standard. *)
Definition text : M string :=
  fun r =>
    if bodyUsed r then (Rejected (TypeError body_used_message), r)
    else
      match body r with
      | JsonText t _ | PlainText t => (Fulfilled t, disturb r)
      | NoBody => (Fulfilled "", disturb r)
      end.

(** [`API Error (${response.status}): ${m}`] *)
Definition api_error (r : Response) (m : string) : string :=
  "API Error (" ++ pretty (status r) ++ "): " ++ m.

(** The statements of the [try] block of [apiFetch]. *)
Definition try_block : M (option Json) :=
  errorData <- json ;;
  m <- lift (get_message errorData) ;;
  response <- get ;;
  throw (Error (api_error response
           (match m with
            | Some v => if ToBoolean v then ToString v else JSON_stringify errorData
            | None => JSON_stringify errorData
            end))).

(** The statements of the [catch] block of [apiFetch]. *)
Definition catch_block : M (option Json) :=
  errorText <- text ;;
  response <- get ;;
  throw (Error (api_error response (or_else errorText (statusText response)))).

(** [contentType.includes('application/json')] *)
Definition includes (s sub : string) : bool :=
  match String.index 0 sub s with Some _ => true | None => false end.

(** [apiFetch], from the point where [await fetch(url, ...)] has produced
    [response]. *)
Definition decode : M (option Json) :=
  response <- get ;;
  if negb (ok response) then try_catch try_block catch_block
  else
    match contentType response with
    | None => ret None
    | Some ct =>
        if includes ct "application/json"
        then (v <- json ;; ret (Some v))
        else ret None
    end.

(** [apiFetch]: a rejected [fetch] propagates, a response is decoded. *)
Definition apiFetch (fetched : Settled Response) : Settled (option Json) :=
  match fetched with
  | Rejected e => Rejected e
  | Fulfilled response => fst (decode response)
  end.

(** A response as [fetch] delivers it: body not read yet. *)
Definition fresh (st : nat) (stText : string) (ct : option string) (b : Body) : Response :=
  {| status := st; statusText := stText; contentType := ct; body := b; bodyUsed := false |}.

End Gateway.

(** ** The creation forms *)

Module PageAdminCreateTask.

Import Js Gateway.

(** The [useState] cells of the component. *)
Record State : Type := mkState {
  isLoading : bool;
  error : option string
}.

Definition initial : State := {| isLoading := false; error := None |}.

(** [Object.fromEntries(formData.entries())]: a later entry replaces an
    earlier one of the same name. *)
Definition fromEntries (entries : list (string * string)) : gmap string string :=
  foldl (fun o kv => <[fst kv := snd kv]> o) ∅ entries.

(** The fields the form requires. *)
Definition mandatory : list string := ["title"; "project"; "group"; "assignee"].

(** The value a form submits for a field: that of its last entry of
    that name, if any. *)
Fixpoint last_value (name : string) (entries : list (string * string)) : option string :=
  match entries with
  | [] => None
  | (k, v) :: rest =>
      match last_value name rest with
      | Some v' => Some v'
      | None => if String.eqb k name then Some v else None
      end
  end.

Definition required_fields_message : string :=
  "Пожалуйста, заполните все обязательные поля.".

(** [handleSubmit] up to its first [await]: the state after the
    [setX] calls made so far and the gateway calls issued.  All inputs
    of this form are text inputs, so every entry value is a string. *)
Definition handleSubmit (formData : list (string * string)) (s : State)
  : State * list ApiCall :=
  let data := fromEntries formData in
  if negb (truthy (data !! "title")) || negb (truthy (data !! "project"))
     || negb (truthy (data !! "group")) || negb (truthy (data !! "assignee"))
  then ({| isLoading := false; error := Some required_fields_message |}, [])
  else ({| isLoading := true; error := None |}, [createTask data]).

(** [handleSubmit] after [await api.createTask(data)] has settled; the
    boolean tells whether [onTaskCreated] gets invoked (at once, or after
    the two-second main-button notice). *)
Definition handleSubmit_settled (r : Settled (option Json)) (s : State) : State * bool :=
  match r with
  | Fulfilled _ => ({| isLoading := false; error := error s |}, true)
  | Rejected e => ({| isLoading := false; error := Some (message e) |}, false)
  end.

End PageAdminCreateTask.

Module PageAdminCreateGroup.

Import Js Gateway.

Record State : Type := mkState {
  isLoading : bool;
  error : option string
}.

(** [formData.get(name)]: the first entry of that name, else [null]. *)
Fixpoint FormData_get (name : string) (formData : list (string * FormDataEntryValue))
  : option FormDataEntryValue :=
  match formData with
  | [] => None
  | (k, v) :: rest => if String.eqb k name then Some v else FormData_get name rest
  end.

(** Truthiness of [formData.get(name)]: a [File] object is truthy. *)
Definition entry_truthy (v : option FormDataEntryValue) : bool :=
  match v with
  | Some (FormString s) => negb (String.eqb s "")
  | Some (FormFile _) => true
  | None => false
  end.

Definition name_required_message : string := "Имя группы является обязательным.".

(** [handleSubmit] up to its first [await]. *)
Definition handleSubmit (formData : list (string * FormDataEntryValue)) (s : State)
  : State * list ApiCall :=
  if negb (entry_truthy (FormData_get "name" formData))
  then ({| isLoading := false; error := Some name_required_message |}, [])
  else ({| isLoading := true; error := None |}, [createGroup formData]).

End PageAdminCreateGroup.

(** ** Screen controllers: fetch on mount and on dependency change *)

Module Controller.

Import Js.

Section Controller.

(** [T] is the payload of the fetch; [guarded] tells whether the load
    function starts with [if (key)] (the two details pages) or not
    (the three list pages). *)
Context {T : Type} (guarded : bool).

(** The state of one mounted component: the dependency of the effect
    ([key]: the [taskId]/[groupId] prop of a details page, the base
    address behind the [api] prop of a list page), the two [useState]
    cells, and the fetches in flight, numbered in the order they were
    issued and remembered with the key they were issued for. *)
Record State : Type := mkState {
  key : string;
  data : option T;
  error : option string;
  pending : gmap nat string;
  next : nat
}.

(** [loadTaskDetails] / [loadTasks] / [loadGroups] / [loadGroupDetails]:
    [setError(null); setData(null); api.fetchX(key).then(setData).catch(...)]. *)
Definition load (s : State) : State :=
  if guarded && negb (truthy (Some (key s))) then s
  else
    {| key := key s;
       data := None;
       error := None;
       pending := <[next s := key s]> (pending s);
       next := S (next s) |}.

(** Mounting the component with the given prop runs the effect once. *)
Definition mount (k : string) : State :=
  load {| key := k; data := None; error := None; pending := ∅; next := 0 |}.

Inductive Event : Type :=
  | Render (k : string)
      (* the parent renders the mounted component with this prop *)
  | Retry
      (* the retry button of [ErrorDisplay], drawn while [error] is truthy *)
  | Settle (n : nat) (r : Settled (option T)).
      (* the promise of the [n]-th fetch settles *)

Definition set_key (k : string) (s : State) : State :=
  {| key := k; data := data s; error := error s;
     pending := pending s; next := next s |}.

(** [.then(setData)] *)
Definition on_fulfilled (n : nat) (v : option T) (s : State) : State :=
  {| key := key s; data := v; error := error s;
     pending := delete n (pending s); next := next s |}.

(** [.catch(e => setError(e.message))] *)
Definition on_rejected (n : nat) (e : JsError) (s : State) : State :=
  {| key := key s; data := data s; error := Some (message e);
     pending := delete n (pending s); next := next s |}.

Definition step (s : State) (ev : Event) : State :=
  match ev with
  | Render k =>
      (* [useEffect(load, [api, key])]: runs again only when the
         dependency differs from the one of the previous render *)
      if String.eqb k (key s) then s else load (set_key k s)
  | Retry => if truthy (error s) then load s else s
  | Settle n r =>
      match pending s !! n with
      | None => s
      | Some _ =>
          match r with
          | Fulfilled v => on_fulfilled n v s
          | Rejected e => on_rejected n e s
          end
      end
  end.

Definition run (s : State) (evs : list Event) : State := foldl step s evs.

End Controller.

Global Arguments State T : clear implicits.
Global Arguments Event T : clear implicits.

End Controller.

Record TaskSummary : Type := mkTaskSummary {
  ts_id : string;
  ts_title : string;
  ts_project : string;
  ts_deadline : string
}.

Record TaskDetails : Type := mkTaskDetails {
  summary : TaskSummary;
  assignee : string;
  group : string;
  description : string;
  startTime : string
}.

(** [PageTaskDetails]: the key is the [taskId] prop, the data is [task]. *)
Module PageTaskDetails.
Definition State : Type := Controller.State TaskDetails.
Definition Event : Type := Controller.Event TaskDetails.
Definition taskId : State -> string := Controller.key.
Definition task : State -> option TaskDetails := Controller.data.
Definition error : State -> option string := Controller.error.
Definition loadTaskDetails : State -> State := Controller.load true.
Definition mount : string -> State := Controller.mount true.
Definition step : State -> Event -> State := Controller.step true.
Definition run : State -> list Event -> State := Controller.run true.
End PageTaskDetails.

(** [PageMyTasks]: the key is the base address of the [api] prop, the
    data is [tasks]. *)
Module PageMyTasks.
Definition State : Type := Controller.State (list TaskSummary).
Definition Event : Type := Controller.Event (list TaskSummary).
Definition tasks : State -> option (list TaskSummary) := Controller.data.
Definition error : State -> option string := Controller.error.
Definition loadTasks : State -> State := Controller.load false.
Definition mount : string -> State := Controller.mount false.
Definition step : State -> Event -> State := Controller.step false.
Definition run : State -> list Event -> State := Controller.run false.
End PageMyTasks.

(** ** The [App] component: navigation state machine *)

Module Nav.

Import Js Gateway.

(** The [useState] cells of [App]. *)
Record App : Type := mkApp {
  currentPage : Page;
  user : option User;
  apiBaseUrl : string;
  error : option string;
  selectedTaskId : option string;
  selectedGroupId : option string
}.

(** Initial values of the [useState] cells. *)
Definition initial : App :=
  {| currentPage := myTasks;
     user := None;
     apiBaseUrl := "";
     error := None;
     selectedTaskId := None;
     selectedGroupId := None |}.

(** [handleNavigate(page)] *)
Definition handleNavigate (page : Page) (s : App) : App :=
  {| currentPage := page;
     user := user s;
     apiBaseUrl := apiBaseUrl s;
     error := error s;
     selectedTaskId := None;
     selectedGroupId := None |}.

(** [handleSelectTask(taskId)] *)
Definition handleSelectTask (taskId : string) (s : App) : App :=
  {| currentPage := taskDetails;
     user := user s;
     apiBaseUrl := apiBaseUrl s;
     error := error s;
     selectedTaskId := Some taskId;
     selectedGroupId := selectedGroupId s |}.

(** [handleSelectGroup(groupId)] *)
Definition handleSelectGroup (groupId : string) (s : App) : App :=
  {| currentPage := groupDetails;
     user := user s;
     apiBaseUrl := apiBaseUrl s;
     error := error s;
     selectedTaskId := selectedTaskId s;
     selectedGroupId := Some groupId |}.

(** [handleBack()].  [webApp] tells whether [window.Telegram?.WebApp] is
    defined in the environment. *)
Definition handleBack (webApp : bool) (s : App) : App :=
  if truthy (selectedTaskId s) || truthy (selectedGroupId s) then
    let targetPage := if truthy (selectedTaskId s) then myTasks else myGroups in
    handleNavigate targetPage s
  else if webApp then handleNavigate myTasks s
  else s.

(** What [renderPage()] returns. *)
Inductive View : Type :=
  | ErrorDisplay (message : string)
  | Loading
  | PageTaskDetails (taskId : string)
  | PageGroupDetails (groupId : string)
  | PageMyTasks
  | PageMyGroups
  | PageAdminCreateTask
  | PageAdminCreateGroup
  | PageAdminAllGroups.

Global Instance View_eq_dec : EqDecision View.
Proof. solve_decision. Defined.

(** The [switch (currentPage)] at the end of [renderPage]. *)
Definition mainPage (p : Page) : View :=
  match p with
  | myTasks => PageMyTasks
  | myGroups => PageMyGroups
  | adminCreateTask => PageAdminCreateTask
  | adminCreateGroup => PageAdminCreateGroup
  | adminAllGroups => PageAdminAllGroups
  | taskDetails | groupDetails => PageMyTasks
  end.

(** [renderPage()] *)
Definition renderPage (s : App) : View :=
  if_truthy (error s) ErrorDisplay
    (match user s with
     | None => Loading
     | Some _ =>
         if_truthy (selectedTaskId s) PageTaskDetails
           (if_truthy (selectedGroupId s) PageGroupDetails
              (mainPage (currentPage s)))
     end).

(** *** Start-up effects and events *)

(** [window.location.search] as [new URLSearchParams(...)] sees it: the
    list of its name/value pairs, or an exception while parsing. *)
Inductive Search : Type :=
  | SearchParams (params : list (string * string))
  | SearchThrows (e : JsError).

(** [urlParams.get(name)]: the first value of that name, else [null]. *)
Fixpoint URLSearchParams_get (name : string) (params : list (string * string))
  : option string :=
  match params with
  | [] => None
  | (k, v) :: rest => if String.eqb k name then Some v else URLSearchParams_get name rest
  end.

Definition set_error (e : option string) (s : App) : App :=
  {| currentPage := currentPage s; user := user s; apiBaseUrl := apiBaseUrl s;
     error := e;
     selectedTaskId := selectedTaskId s; selectedGroupId := selectedGroupId s |}.

Definition set_apiBaseUrl (u : string) (s : App) : App :=
  {| currentPage := currentPage s; user := user s; apiBaseUrl := u;
     error := error s;
     selectedTaskId := selectedTaskId s; selectedGroupId := selectedGroupId s |}.

Definition set_user_and_page (u : User) (p : Page) (s : App) : App :=
  {| currentPage := p; user := Some u; apiBaseUrl := apiBaseUrl s;
     error := error s;
     selectedTaskId := selectedTaskId s; selectedGroupId := selectedGroupId s |}.

Definition missing_replyip_message : string :=
  "Ошибка конфигурации: параметр 'replyip' не найден в URL.".

(** Step 3 of the initialisation effect: reading [replyip]. *)
Definition init_effect (search : Search) (s : App) : App :=
  match search with
  | SearchParams params =>
      if_truthy (URLSearchParams_get "replyip" params)
        (fun replyIp => set_apiBaseUrl replyIp s)
        (set_error (Some missing_replyip_message) s)
  | SearchThrows e => set_error (Some ("Ошибка парсинга URL: " ++ message e)) s
  end.

(** The application together with what it has done to its
    environment: [webApp] tells whether [window.Telegram?.WebApp] is
    defined, [calls] lists the gateway calls issued so far (oldest
    first), [userDataPending] tells whether the promise of
    [api.fetchUserData()] is still unsettled. *)
Record World : Type := mkWorld {
  app : App;
  webApp : bool;
  calls : list ApiCall;
  userDataPending : bool
}.

(** The identity effect, [useEffect(..., [api, apiBaseUrl])]: it runs
    after the first render (with [apiBaseUrl = ''], doing nothing) and
    once more when the initialisation effect has set [apiBaseUrl]. *)
Definition identity_effect (w : World) : World :=
  if truthy (Some (apiBaseUrl (app w))) then
    {| app := set_error None (app w);
       webApp := webApp w;
       calls := calls w ++ [fetchUserData];
       userDataPending := true |}
  else w.

(** The application once its mount effects have run. *)
Definition start (webApp : bool) (search : Search) : World :=
  identity_effect
    {| app := init_effect search initial;
       webApp := webApp;
       calls := [];
       userDataPending := false |}.

(** The [.then]/[.catch] handlers on [api.fetchUserData()], the promise
    being taken at its declared type [Promise<User>]. *)
Definition on_user_data (r : Settled User) (s : App) : App :=
  match r with
  | Fulfilled u =>
      match role u with
      | role_admin => set_user_and_page u adminCreateTask s
      | role_user => set_user_and_page u myTasks s
      end
  | Rejected e => set_error (Some ("Ошибка аутентификации: " ++ message e)) s
  end.

(** What can happen to the running application. *)
Inductive Event : Type :=
  | Navigate (page : Page)
      (* [handleNavigate(page)]: a [BottomNavBar] button, the [onBack] of a
         details page, [onTaskCreated], [onGroupCreated] *)
  | Back
      (* the host's back button: [handleBack()] *)
  | SelectTask (taskId : string)
      (* a [ListItem] of [PageMyTasks] *)
  | SelectGroup (groupId : string)
      (* a [ListItem] of [PageMyGroups] or [PageAdminAllGroups] *)
  | UserDataSettled (r : Settled User)
      (* the promise of [api.fetchUserData()] settles *)
  | Retry
      (* the retry button of the page on screen *)
  | SubmitTask (formData : list (string * string))
      (* the form of [PageAdminCreateTask] *)
  | SubmitGroup (formData : list (string * FormDataEntryValue)).
      (* the form of [PageAdminCreateGroup] *)

(** The fetch a page component issues from its effect (and from its
    retry button). *)
Definition page_fetch (v : View) : list ApiCall :=
  match v with
  | PageMyTasks => [fetchUserTasks]
  | PageTaskDetails taskId => [fetchTaskDetails taskId]
  | PageMyGroups => [fetchUserGroups]
  | PageGroupDetails groupId => [fetchGroupDetails groupId]
  | PageAdminAllGroups => [fetchAllGroups]
  | ErrorDisplay _ | Loading | PageAdminCreateTask | PageAdminCreateGroup => []
  end.

(** The effects React runs after a render: a page whose component was
    not on screen before, or whose key changed, loads its data. *)
Definition mount_effects (before after : View) : list ApiCall :=
  if decide (before = after) then [] else page_fetch after.

(** The handler of an event.  Handlers wired to a page fire only while
    [renderPage] draws that page; [Navigate] and [Back] are accepted in
    every state, which covers the delayed [onTaskCreated] /
    [onGroupCreated] callbacks and back-button handlers registered by
    earlier renders.  The state local to the page on screen is not
    tracked here (see [Controller]): [Retry] and the two submissions are
    accepted whenever their page is drawn, which can only add calls. *)
Definition handle (ev : Event) (w : World) : World :=
  let v := renderPage (app w) in
  let with_app (f : App -> App) : World :=
    {| app := f (app w); webApp := webApp w; calls := calls w;
       userDataPending := userDataPending w |} in
  let with_calls (cs : list ApiCall) : World :=
    {| app := app w; webApp := webApp w; calls := calls w ++ cs;
       userDataPending := userDataPending w |} in
  match ev with
  | Navigate page => with_app (handleNavigate page)
  | Back => with_app (handleBack (webApp w))
  | SelectTask taskId =>
      match v with
      | PageMyTasks => with_app (handleSelectTask taskId)
      | _ => w
      end
  | SelectGroup groupId =>
      match v with
      | PageMyGroups | PageAdminAllGroups => with_app (handleSelectGroup groupId)
      | _ => w
      end
  | UserDataSettled r =>
      if userDataPending w then
        {| app := on_user_data r (app w); webApp := webApp w; calls := calls w;
           userDataPending := false |}
      else w
  | Retry => with_calls (page_fetch v)
  | SubmitTask formData =>
      match v with
      | PageAdminCreateTask =>
          with_calls (snd (PageAdminCreateTask.handleSubmit formData
                             PageAdminCreateTask.initial))
      | _ => w
      end
  | SubmitGroup formData =>
      match v with
      | PageAdminCreateGroup =>
          with_calls (snd (PageAdminCreateGroup.handleSubmit formData
                             {| PageAdminCreateGroup.isLoading := false;
                                PageAdminCreateGroup.error := None |}))
      | _ => w
      end
  end.

(** One event: its handler, then the effects of the render that follows. *)
Definition step (w : World) (ev : Event) : World :=
  let w' := handle ev w in
  {| app := app w'; webApp := webApp w';
     calls := calls w' ++ mount_effects (renderPage (app w)) (renderPage (app w'));
     userDataPending := userDataPending w' |}.

Definition run (w : World) (evs : list Event) : World := foldl step w evs.

(** A selection is active when the code's test [if (selectedXId)] holds. *)
Definition task_selected (s : App) : bool := truthy (selectedTaskId s).
Definition group_selected (s : App) : bool := truthy (selectedGroupId s).

(** At most one drill-down selection is active. *)
Definition at_most_one_selection (s : App) : Prop :=
  task_selected s = false \/ group_selected s = false.

(** At most one drill-down selection is set (non-null). *)
Definition at_most_one_set (s : App) : Prop :=
  selectedTaskId s = None \/ selectedGroupId s = None.

(** Before the identity has arrived: no user, no error, no selection. *)
Definition awaiting_identity (w : World) : Prop :=
  userDataPending w = true
  /\ user (app w) = None
  /\ error (app w) = None
  /\ selectedTaskId (app w) = None
  /\ selectedGroupId (app w) = None.

End Nav.

(** ** Sample data *)

Module Sample.

Import Gateway.

Definition detailsA : TaskDetails :=
  {| summary := {| ts_id := "A"; ts_title := "Task A"; ts_project := "Core";
                   ts_deadline := "2026-01-01T10:00" |};
     assignee := "1"; group := "g1"; description := "first";
     startTime := "2025-12-01T10:00" |}.

Definition detailsB : TaskDetails :=
  {| summary := {| ts_id := "B"; ts_title := "Task B"; ts_project := "Core";
                   ts_deadline := "2026-02-01T10:00" |};
     assignee := "2"; group := "g1"; description := "second";
     startTime := "2025-12-02T10:00" |}.

(** The bytes [{"message":"not found"}]. *)
Definition not_found_text : string :=
  "{" ++ dquote ++ "message" ++ dquote ++ ":" ++ dquote ++ "not found" ++ dquote ++ "}".

(** Status 404 with the JSON body [{"message":"not found"}]. *)
Definition response404 : Response :=
  fresh 404 "Not Found" (Some "application/json")
    (JsonText not_found_text (JObject [("message", JString "not found")])).

(** Status 500 with the non-JSON body [Internal Server Error]. *)
Definition response500 : Response :=
  fresh 500 "Internal Server Error" (Some "text/plain")
    (PlainText "Internal Server Error").

End Sample.

(** ** The screen-resolution rules of the specification *)

Module Spec.

Import Js Nav.

(** The screen of a tab; the two details pages are not tabs. *)
Definition tab_screen (p : Page) : option View :=
  match p with
  | myTasks => Some PageMyTasks
  | myGroups => Some PageMyGroups
  | adminCreateTask => Some PageAdminCreateTask
  | adminCreateGroup => Some PageAdminCreateGroup
  | adminAllGroups => Some PageAdminAllGroups
  | taskDetails | groupDetails => None
  end.

(** The precedence the specification lists, one constructor per rule;
    each rule applies only when the rules before it do not. *)
Inductive ScreenPrecedence (s : App) : View -> Prop :=
  | rule1_error (m : string) :
      error s = Some m -> m <> "" ->
      ScreenPrecedence s (ErrorDisplay m)
  | rule2_loading :
      truthy (error s) = false ->
      user s = None ->
      ScreenPrecedence s Loading
  | rule3_task (t : string) :
      truthy (error s) = false ->
      user s <> None ->
      selectedTaskId s = Some t -> t <> "" ->
      ScreenPrecedence s (PageTaskDetails t)
  | rule4_group (g : string) :
      truthy (error s) = false ->
      user s <> None ->
      task_selected s = false ->
      selectedGroupId s = Some g -> g <> "" ->
      ScreenPrecedence s (PageGroupDetails g)
  | rule5_tab (v : View) :
      truthy (error s) = false ->
      user s <> None ->
      task_selected s = false ->
      group_selected s = false ->
      tab_screen (currentPage s) = Some v ->
      ScreenPrecedence s v
  | rule5_fallback :
      truthy (error s) = false ->
      user s <> None ->
      task_selected s = false ->
      group_selected s = false ->
      tab_screen (currentPage s) = None ->
      ScreenPrecedence s PageMyTasks.

End Spec.

(** ** The request side of [apiFetch] and [createApiService] *)

Module Request.

Import Js Gateway.

(** The [body] of a request, as [createApiService] builds it:
    [JSON.stringify] of an object literal (given by the fields it
    writes), [JSON.stringify] of the record handed to [createTask], or a
    [FormData] object.  The first two are strings that start with an
    opening brace, the third is an object: all three are truthy. *)
Inductive BodyInit : Type :=
  | JsonOfObject (fields : list (string * Json))
  | JsonOfRecord (data : gmap string string)
  | FormDataBody (data : list (string * FormDataEntryValue)).

(** [options.body instanceof FormData] *)
Definition is_FormData (b : BodyInit) : bool :=
  match b with
  | FormDataBody _ => true
  | JsonOfObject _ | JsonOfRecord _ => false
  end.

(** [RequestInit]; [headers] is a [Headers] object, which keeps header
    names in lower case. *)
Record RequestInit : Type := mkRequestInit {
  method : option string;
  headers : gmap string string;
  body : option BodyInit
}.

(** The arguments [apiFetch] passes to [fetch]. *)
Record FetchArgs : Type := mkFetchArgs {
  url : string;
  init : RequestInit
}.

(** [apiFetch] up to the call of [fetch]; [tgInitData] is
    [window.Telegram?.WebApp?.initData]. *)
Definition apiFetch_request
    (tgInitData : option string) (apiBaseUrl endpoint : string) (options : RequestInit)
  : FetchArgs :=
  let h0 := headers options in
  let h1 := if_truthy tgInitData (fun d => <["authorization" := "tma " ++ d]> h0) h0 in
  let h2 :=
    match body options with
    | Some b => if is_FormData b then h1 else <["content-type" := "application/json"]> h1
    | None => h1
    end in
  {| url := apiBaseUrl ++ endpoint;
     init := {| method := method options; headers := h2; body := body options |} |}.

(** The object literal [{ initData }]: [JSON.stringify] leaves out a
    property whose value is [undefined]. *)
Definition initData_object (tgInitData : option string) : list (string * Json) :=
  match tgInitData with
  | Some d => [("initData", JString d)]
  | None => []
  end.

(** The endpoint each operation of [createApiService] names ... *)
Definition endpoint (call : ApiCall) : string :=
  match call with
  | fetchUserData => "/api/auth/me"
  | fetchUserTasks => "/api/user/tasks"
  | fetchTaskDetails _ => "/api/taskDetails"
  | fetchUserGroups => "/api/user/groups"
  | fetchGroupDetails groupId => "/api/groups/" ++ groupId
  | createTask _ => "/api/tasks"
  | createGroup _ => "/api/groups"
  | fetchAllGroups => "/api/admin/groups/all"
  end.

(** ... and the options it passes. *)
Definition options (tgInitData : option string) (call : ApiCall) : RequestInit :=
  match call with
  | fetchUserData =>
      {| method := Some "POST"; headers := ∅;
         body := Some (JsonOfObject (initData_object tgInitData)) |}
  | fetchTaskDetails taskId =>
      {| method := Some "POST"; headers := ∅;
         body := Some (JsonOfObject [("taskId", JString taskId)]) |}
  | createTask data =>
      {| method := Some "POST"; headers := ∅; body := Some (JsonOfRecord data) |}
  | createGroup data =>
      {| method := Some "POST"; headers := ∅; body := Some (FormDataBody data) |}
  | fetchUserTasks | fetchUserGroups | fetchGroupDetails _ | fetchAllGroups =>
      {| method := Some "GET"; headers := ∅; body := None |}
  end.

(** [createApiService(apiBaseUrl)]: what each operation hands to [fetch]. *)
Definition createApiService
    (tgInitData : option string) (apiBaseUrl : string) (call : ApiCall) : FetchArgs :=
  apiFetch_request tgInitData apiBaseUrl (endpoint call) (options tgInitData call).

(** The operations under the source's heading of admin methods. *)
Definition admin_method (call : ApiCall) : bool :=
  match call with
  | createTask _ | createGroup _ | fetchAllGroups => true
  | fetchUserData | fetchUserTasks | fetchTaskDetails _
  | fetchUserGroups | fetchGroupDetails _ => false
  end.

End Request.

(** ** What a page component draws *)

Module PageRender.

Import Js.

(** The three conditional blocks of a data page:
    [{error && <ErrorDisplay message={error} onRetry={load} />}],
    [{!data && !error && <Loading />}], [{data && (...)}]. *)
Record Shown (T : Type) : Type := mkShown {
  error_display : option string;
  loading : bool;
  content : option T
}.
Global Arguments mkShown {T} _ _ _.
Global Arguments error_display {T} _.
Global Arguments loading {T} _.
Global Arguments content {T} _.

Definition render {T : Type} (s : Controller.State T) : Shown T :=
  {| error_display := if_truthy (Controller.error s) Some None;
     loading := match Controller.data s with
                | None => negb (truthy (Controller.error s))
                | Some _ => false
                end;
     content := Controller.data s |}.

End PageRender.

(** ** The navigation bar and the host's back button *)

Module BottomNavBar.

Import Js Nav.

Definition navItems : list Page := [myTasks; myGroups].

Definition adminNavItems : list Page :=
  [adminCreateTask; adminCreateGroup; adminAllGroups].

(** [role === 'admin' ? [...navItems, ...adminNavItems] : navItems] *)
Definition itemsToShow (r : UserRole) : list Page :=
  match r with
  | role_admin => navItems ++ adminNavItems
  | role_user => navItems
  end.

(** [{user && !error && <BottomNavBar ... />}] *)
Definition shown (s : App) : bool :=
  match user s with
  | Some _ => negb (truthy (error s))
  | None => false
  end.

End BottomNavBar.

Module BackButton.

Import Js Nav.

Inductive Call : Type := show | hide | onClick.

(** The effect that activates the back button; it runs after the
    first render and whenever a selection changes. *)
Definition effect (webApp : bool) (s : App) : list Call :=
  if webApp then
    if truthy (selectedTaskId s) || truthy (selectedGroupId s)
    then [show; onClick]
    else [hide; onClick]
  else [].

(** Whether the button is visible once the effect has run. *)
Definition visible (webApp : bool) (s : App) : bool :=
  match effect webApp s with
  | show :: _ => true
  | _ => false
  end.

End BackButton.

(** ** Well-formed application states *)

Module Reach.

Import Js Nav.

(** What every state of a running application satisfies: while the
    identity is awaited there is neither an error nor a user; once a user
    is loaded there is no error; a selection is active only with a user. *)
Definition consistent (w : World) : Prop :=
  (userDataPending w = true -> error (app w) = None /\ user (app w) = None)
  /\ (user (app w) <> None -> error (app w) = None)
  /\ (task_selected (app w) || group_selected (app w) = true -> user (app w) <> None).

(** The pages of the two tabs every role has, and their details pages. *)
Definition user_page (p : Page) : bool :=
  match p with
  | myTasks | taskDetails | myGroups | groupDetails => true
  | adminCreateTask | adminCreateGroup | adminAllGroups => false
  end.

(** The screens of the three admin tabs. *)
Definition admin_view (v : View) : bool :=
  match v with
  | PageAdminCreateTask | PageAdminCreateGroup | PageAdminAllGroups => true
  | _ => false
  end.

End Reach.

(** * Properties *)

(** ** JavaScript truthiness *)

Section JsFacts.

Import Js.

Lemma truthy_Some_nonempty (s : string) : truthy (Some s) = true <-> s <> "".
Proof.
  unfold truthy. destruct (String.eqb_spec s ""); simpl; split; intros; congruence.
Qed.

Lemma truthy_false_inv (v : option string) :
  truthy v = false <-> v = None \/ v = Some "".
Proof.
  destruct v as [s|]; simpl.
  - destruct (String.eqb_spec s ""); simpl; split; intros H.
    + right. congruence.
    + reflexivity.
    + discriminate.
    + destruct H as [H|H]; congruence.
  - split; auto.
Qed.

Lemma if_truthy_true {A : Type} (v : option string) (yes : string -> A) (no : A) :
  truthy v = true -> exists s, v = Some s /\ s <> "" /\ if_truthy v yes no = yes s.
Proof.
  destruct v as [s|]; simpl; [|discriminate].
  destruct (String.eqb_spec s ""); simpl; [discriminate|]. eauto.
Qed.

Lemma if_truthy_false {A : Type} (v : option string) (yes : string -> A) (no : A) :
  truthy v = false -> if_truthy v yes no = no.
Proof.
  destruct v as [s|]; simpl; [|reflexivity].
  destruct (String.eqb s ""); simpl; [reflexivity|discriminate].
Qed.

Lemma if_truthy_nonempty {A : Type} (s : string) (yes : string -> A) (no : A) :
  s <> "" -> if_truthy (Some s) yes no = yes s.
Proof.
  intros Hs. simpl. destruct (String.eqb_spec s ""); [contradiction|reflexivity].
Qed.

End JsFacts.

(** ** Navigation handlers *)

Import Js Gateway Nav.

(** C7.  [handleNavigate(page)] makes [page] the current page and sets
    both drill-down selections to [null], whatever the state it is called
    in (so also when [page] is already the current page); the other cells
    of the application keep their value. *)
Theorem handleNavigate_sets_page_and_clears (page : Page) (s : App) :
  currentPage (handleNavigate page s) = page
  /\ selectedTaskId (handleNavigate page s) = None
  /\ selectedGroupId (handleNavigate page s) = None
  /\ user (handleNavigate page s) = user s
  /\ apiBaseUrl (handleNavigate page s) = apiBaseUrl s
  /\ error (handleNavigate page s) = error s.
Proof. unfold handleNavigate; simpl; repeat split. Qed.

Lemma handleNavigate_idempotent (page : Page) (s : App) :
  handleNavigate page (handleNavigate page s) = handleNavigate page s.
Proof. reflexivity. Qed.

(** After any non-empty sequence of [Navigate] events no selection is left. *)
Lemma navigate_sequence_clears (w : World) (pages : list Page) (page : Page) :
  let w' := run w (map Navigate (pages ++ [page])) in
  currentPage (app w') = page
  /\ selectedTaskId (app w') = None
  /\ selectedGroupId (app w') = None.
Proof.
  unfold run. rewrite map_app, foldl_app. simpl. repeat split.
Qed.

(** C10.  With no drill-down selection active and no host bridge
    ([window.Telegram?.WebApp] undefined), [handleBack()] changes nothing:
    the current page and both selections keep their values. *)
Theorem handleBack_without_bridge_is_identity (s : App) :
  task_selected s = false ->
  group_selected s = false ->
  handleBack false s = s.
Proof.
  unfold handleBack, task_selected, group_selected. intros -> ->. reflexivity.
Qed.

Lemma handleBack_without_bridge_is_identity_witness :
  let s := handleNavigate myGroups initial in
  task_selected s = false /\ group_selected s = false /\ handleBack false s = s.
Proof.
  split; [reflexivity|]. split; [reflexivity|].
  apply handleBack_without_bridge_is_identity; reflexivity.
Defined.

(** The navigation to the default tab does happen when the bridge is there. *)
Lemma handleBack_with_bridge_no_selection (s : App) :
  task_selected s = false ->
  group_selected s = false ->
  handleBack true s = handleNavigate myTasks s.
Proof.
  unfold handleBack, task_selected, group_selected. intros -> ->. reflexivity.
Qed.

(** C6, as stated, fails: on the groups list, with no selection and no
    host bridge, [handleBack()] stays on the groups list instead of
    going to the tasks list. *)
Lemma handleBack_no_selection_counterexample :
  let s := handleNavigate myGroups initial in
  task_selected s = false
  /\ group_selected s = false
  /\ currentPage (handleBack false s) = myGroups
  /\ currentPage (handleBack false s) <> myTasks.
Proof. repeat split; discriminate. Qed.

(** C6, amended.  When a drill-down selection is active, or the host
    bridge is present, [handleBack()] clears both selections and goes to
    the tasks list if a task selection is active, else to the groups list
    if a group selection is active, else (no selection, bridge present)
    to the tasks list; nothing else changes. *)
Theorem handleBack_clears_and_returns_to_list (webApp : bool) (s : App) :
  task_selected s || group_selected s || webApp = true ->
  currentPage (handleBack webApp s)
    = (if task_selected s then myTasks
       else if group_selected s then myGroups
       else myTasks)
  /\ selectedTaskId (handleBack webApp s) = None
  /\ selectedGroupId (handleBack webApp s) = None
  /\ user (handleBack webApp s) = user s
  /\ apiBaseUrl (handleBack webApp s) = apiBaseUrl s
  /\ error (handleBack webApp s) = error s.
Proof.
  unfold handleBack, task_selected, group_selected.
  destruct (truthy (selectedTaskId s)), (truthy (selectedGroupId s)), webApp;
    simpl; intros H; try discriminate; repeat split.
Qed.

Lemma handleBack_clears_and_returns_to_list_witness :
  let s := handleSelectTask "t1" initial in
  currentPage (handleBack false s) = myTasks
  /\ selectedTaskId (handleBack false s) = None
  /\ selectedGroupId (handleBack false s) = None
  /\ user (handleBack false s) = user s
  /\ apiBaseUrl (handleBack false s) = apiBaseUrl s
  /\ error (handleBack false s) = error s.
Proof.
  exact (handleBack_clears_and_returns_to_list false
           (handleSelectTask "t1" initial) eq_refl).
Defined.

(** ** Screen resolution *)

Import Spec.

Lemma mainPage_tab_screen (p : Page) :
  mainPage p = default PageMyTasks (tab_screen p).
Proof. destruct p; reflexivity. Qed.

Lemma renderPage_sound (s : App) : ScreenPrecedence s (renderPage s).
Proof.
  unfold renderPage.
  destruct (truthy (error s)) eqn:He.
  { destruct (if_truthy_true (error s) ErrorDisplay
                (match user s with
                 | None => Loading
                 | Some _ =>
                     if_truthy (selectedTaskId s) PageTaskDetails
                       (if_truthy (selectedGroupId s) PageGroupDetails
                          (mainPage (currentPage s)))
                 end) He) as (m & Hm & Hne & ->).
    now apply rule1_error. }
  rewrite (if_truthy_false _ _ _ He).
  destruct (user s) as [u|] eqn:Hu; [|now apply rule2_loading].
  assert (Hu' : user s <> None) by congruence.
  destruct (truthy (selectedTaskId s)) eqn:Ht.
  { destruct (if_truthy_true (selectedTaskId s) PageTaskDetails
                (if_truthy (selectedGroupId s) PageGroupDetails
                   (mainPage (currentPage s))) Ht) as (t & Hsel & Hne & ->).
    now apply rule3_task. }
  rewrite (if_truthy_false _ _ _ Ht).
  destruct (truthy (selectedGroupId s)) eqn:Hg.
  { destruct (if_truthy_true (selectedGroupId s) PageGroupDetails
                (mainPage (currentPage s)) Hg) as (g & Hsel & Hne & ->).
    now apply rule4_group. }
  rewrite (if_truthy_false _ _ _ Hg), mainPage_tab_screen.
  destruct (tab_screen (currentPage s)) as [v|] eqn:Hp; simpl.
  - now apply rule5_tab.
  - now apply rule5_fallback.
Qed.

Lemma ScreenPrecedence_functional (s : App) (v1 v2 : View) :
  ScreenPrecedence s v1 -> ScreenPrecedence s v2 -> v1 = v2.
Proof.
  assert (Hsome : forall o x, o = Some x -> x <> "" -> truthy o = true).
  { intros o x -> Hx. now apply truthy_Some_nonempty. }
  intros H1 H2.
  destruct H1; destruct H2; try reflexivity;
    unfold task_selected, group_selected in *;
    repeat match goal with
      | H : ?o = Some ?x, Hne : ?x <> "" |- _ =>
          apply (Hsome o x H) in Hne
      end; congruence.
Qed.

(** C5.  [renderPage()] resolves the screen by exactly the precedence
    of the specification: (1) a session error draws the error screen;
    (2) else, no identity yet draws the loading screen; (3) else an active
    task selection draws the task details; (4) else an active group
    selection draws the group details; (5) else the screen of the current
    tab is drawn, the two details pages (which are no tabs) falling back
    to the tasks list.  The screen drawn is the one, and the only one,
    the rules allow. *)
Theorem renderPage_precedence (s : App) (v : View) :
  renderPage s = v <-> ScreenPrecedence s v.
Proof.
  split.
  - intros <-. apply renderPage_sound.
  - intros H. apply (ScreenPrecedence_functional s); [apply renderPage_sound|exact H].
Qed.

(** A list page is on screen only while no selection is active. *)
Lemma list_page_no_selection (s : App) :
  renderPage s = PageMyTasks \/ renderPage s = PageMyGroups
  \/ renderPage s = PageAdminAllGroups ->
  task_selected s = false /\ group_selected s = false.
Proof.
  intros H.
  assert (Hv : ScreenPrecedence s (renderPage s)) by apply renderPage_sound.
  destruct Hv; try (destruct H as [H|[H|H]]; discriminate); split; assumption.
Qed.

(** ** Mutual exclusion of the two selections *)

(** C3, as stated, fails.  [handleSelectTask] keeps a group selection
    that is already set, so it takes a state with one selection set to a
    state with both set.  In the running application the same happens
    through the screens when a group with the empty id is selected: the
    selection is set but not active, the tasks list is drawn, and
    selecting a task there leaves both selections non-null. *)
Lemma select_keeps_other_selection_counterexample :
  (let s := handleSelectGroup "g1" initial in
   at_most_one_set s
   /\ ~ at_most_one_set (handleSelectTask "t1" s)
   /\ selectedTaskId (handleSelectTask "t1" s) = Some "t1"
   /\ selectedGroupId (handleSelectTask "t1" s) = Some "g1")
  /\ (let w := run (start true (SearchParams [("replyip", "https://api.example")]))
                 [UserDataSettled (Fulfilled (mkUser "7" "Ann" role_user));
                  Navigate myGroups; SelectGroup ""; SelectTask "t1"] in
      selectedTaskId (app w) = Some "t1"
      /\ selectedGroupId (app w) = Some ""
      /\ ~ at_most_one_set (app w)).
Proof.
  split.
  - simpl. repeat split; [left; reflexivity|].
    intros [H|H]; discriminate.
  - vm_compute. repeat split. intros [H|H]; discriminate.
Qed.

Lemma app_step (w : World) (ev : Event) : app (step w ev) = app (handle ev w).
Proof. reflexivity. Qed.

Lemma webApp_step (w : World) (ev : Event) : webApp (step w ev) = webApp w.
Proof.
  unfold step, handle; simpl.
  destruct ev; simpl; try reflexivity;
    try (destruct (renderPage (app w)); reflexivity).
  destruct (userDataPending w); reflexivity.
Qed.

Lemma handleBack_at_most_one (b : bool) (s : App) :
  at_most_one_selection s -> at_most_one_selection (handleBack b s).
Proof.
  unfold handleBack, at_most_one_selection, task_selected, group_selected.
  intros Hinv.
  destruct (truthy (selectedTaskId s)) eqn:Ht,
           (truthy (selectedGroupId s)) eqn:Hg, b;
    simpl; rewrite ?Ht, ?Hg; auto.
Qed.

Lemma on_user_data_selections (r : Settled User) (s : App) :
  selectedTaskId (on_user_data r s) = selectedTaskId s
  /\ selectedGroupId (on_user_data r s) = selectedGroupId s.
Proof. destruct r as [[i n []]|e]; split; reflexivity. Qed.

Lemma step_at_most_one (w : World) (ev : Event) :
  at_most_one_selection (app w) -> at_most_one_selection (app (step w ev)).
Proof.
  intros Hinv. rewrite app_step.
  destruct ev as [page| |taskId|groupId|r| |fd|fd]; unfold handle; simpl.
  - left; reflexivity.
  - now apply handleBack_at_most_one.
  - destruct (renderPage (app w)) eqn:Hv; simpl; try exact Hinv.
    destruct (list_page_no_selection (app w)) as [_ Hg]; [auto|].
    right. exact Hg.
  - destruct (renderPage (app w)) eqn:Hv; simpl; try exact Hinv;
      (destruct (list_page_no_selection (app w)) as [Ht _]; [auto|]);
      left; exact Ht.
  - destruct (userDataPending w); simpl; [|exact Hinv].
    unfold at_most_one_selection, task_selected, group_selected in *.
    destruct (on_user_data_selections r (app w)) as [-> ->]. exact Hinv.
  - exact Hinv.
  - destruct (renderPage (app w)); exact Hinv.
  - destruct (renderPage (app w)); exact Hinv.
Qed.

Lemma run_at_most_one (evs : list Event) (w : World) :
  at_most_one_selection (app w) -> at_most_one_selection (app (run w evs)).
Proof.
  revert w. induction evs as [|ev evs IH]; intros w Hinv; simpl.
  - exact Hinv.
  - apply IH. now apply step_at_most_one.
Qed.

Lemma start_no_selection (b : bool) (search : Search) :
  selectedTaskId (app (start b search)) = None
  /\ selectedGroupId (app (start b search)) = None.
Proof.
  unfold start, identity_effect, init_effect.
  destruct search as [params|e]; simpl.
  - destruct (URLSearchParams_get "replyip" params) as [ip|]; simpl.
    + destruct (String.eqb ip ""); simpl.
      * split; reflexivity.
      * destruct (String.eqb ip ""); simpl; split; reflexivity.
    + split; reflexivity.
  - split; reflexivity.
Qed.

(** A selection event that the screen does not offer changes nothing. *)
Lemma step_select_task (w : World) (taskId : string) :
  app (step w (SelectTask taskId)) = app w
  \/ renderPage (app w) = PageMyTasks
     /\ task_selected (app w) = false
     /\ group_selected (app w) = false
     /\ app (step w (SelectTask taskId)) = handleSelectTask taskId (app w).
Proof.
  rewrite app_step. unfold handle.
  destruct (renderPage (app w)) eqn:Hv; try (left; reflexivity).
  right. destruct (list_page_no_selection (app w)) as [Ht Hg]; auto.
Qed.

Lemma step_select_group (w : World) (groupId : string) :
  app (step w (SelectGroup groupId)) = app w
  \/ (renderPage (app w) = PageMyGroups \/ renderPage (app w) = PageAdminAllGroups)
     /\ task_selected (app w) = false
     /\ group_selected (app w) = false
     /\ app (step w (SelectGroup groupId)) = handleSelectGroup groupId (app w).
Proof.
  rewrite app_step. unfold handle.
  destruct (renderPage (app w)) eqn:Hv; try (left; reflexivity);
    right; (destruct (list_page_no_selection (app w)) as [Ht Hg]; [auto|]); auto.
Qed.

(** C3, amended.  In every state the application reaches from start-up
    through its events, at most one of [selectedTaskId] and
    [selectedGroupId] is active (non-null and non-empty, which is the test
    the code applies to a selection).  [handleNavigate] sets both
    selections to [null]; [handleBack] sets both to [null] when a
    selection is active or the host bridge is present, and otherwise
    changes nothing; [handleSelectTask] and [handleSelectGroup] leave the
    other selection as it is, and the application accepts them only while
    a list page is drawn, where no selection is active. *)
Theorem reachable_at_most_one_selection
    (b : bool) (search : Search) (evs : list Event)
    (w : World) (s : App) (bridge : bool) (page : Page) (id : string) :
  at_most_one_selection (app (run (start b search) evs))
  /\ (selectedTaskId (handleNavigate page s) = None
      /\ selectedGroupId (handleNavigate page s) = None)
  /\ (if task_selected s || group_selected s || bridge
      then selectedTaskId (handleBack bridge s) = None
           /\ selectedGroupId (handleBack bridge s) = None
      else handleBack bridge s = s)
  /\ selectedGroupId (handleSelectTask id s) = selectedGroupId s
  /\ selectedTaskId (handleSelectGroup id s) = selectedTaskId s
  /\ (app (step w (SelectTask id)) = app w
      \/ renderPage (app w) = PageMyTasks
         /\ task_selected (app w) = false
         /\ group_selected (app w) = false
         /\ app (step w (SelectTask id)) = handleSelectTask id (app w))
  /\ (app (step w (SelectGroup id)) = app w
      \/ (renderPage (app w) = PageMyGroups \/ renderPage (app w) = PageAdminAllGroups)
         /\ task_selected (app w) = false
         /\ group_selected (app w) = false
         /\ app (step w (SelectGroup id)) = handleSelectGroup id (app w)).
Proof.
  split.
  { apply run_at_most_one. left.
    unfold task_selected. now rewrite (proj1 (start_no_selection b search)). }
  split; [split; reflexivity|].
  split.
  { unfold handleBack, task_selected, group_selected.
    destruct (truthy (selectedTaskId s)), (truthy (selectedGroupId s)), bridge;
      simpl; try (split; reflexivity); reflexivity. }
  split; [reflexivity|]. split; [reflexivity|].
  split; [apply step_select_task|apply step_select_group].
Qed.

(** ** Start-up: the launch parameter *)

Lemma renderPage_error (s : App) (m : string) :
  error s = Some m -> m <> "" -> renderPage s = ErrorDisplay m.
Proof.
  intros He Hm. unfold renderPage. rewrite He. now apply if_truthy_nonempty.
Qed.

Lemma missing_replyip_message_nonempty : missing_replyip_message <> "".
Proof. discriminate. Qed.

Lemma start_without_replyip (b : bool) (params : list (string * string)) :
  truthy (URLSearchParams_get "replyip" params) = false ->
  start b (SearchParams params)
  = {| app := set_error (Some missing_replyip_message) initial;
       webApp := b; calls := []; userDataPending := false |}.
Proof.
  intros H. unfold start, init_effect. rewrite (if_truthy_false _ _ _ H).
  reflexivity.
Qed.

Lemma handleBack_frame (b : bool) (s : App) :
  error (handleBack b s) = error s
  /\ user (handleBack b s) = user s
  /\ apiBaseUrl (handleBack b s) = apiBaseUrl s.
Proof.
  unfold handleBack.
  destruct (truthy (selectedTaskId s) || truthy (selectedGroupId s));
    [|destruct b]; simpl; auto.
Qed.

Lemma handle_config_error (w : World) (ev : Event) :
  error (app w) = Some missing_replyip_message ->
  userDataPending w = false ->
  error (app (handle ev w)) = Some missing_replyip_message
  /\ userDataPending (handle ev w) = false
  /\ user (app (handle ev w)) = user (app w)
  /\ apiBaseUrl (app (handle ev w)) = apiBaseUrl (app w)
  /\ calls (handle ev w) = calls w.
Proof.
  intros He Hp.
  pose proof (renderPage_error (app w) _ He missing_replyip_message_nonempty) as Hv.
  destruct ev as [page| |taskId|groupId|r| |fd|fd]; unfold handle;
    rewrite ?Hv, ?Hp; cbn [app calls userDataPending webApp page_fetch];
    rewrite ?app_nil_r; auto.
  destruct (handleBack_frame (webApp w) (app w)) as (-> & -> & ->). auto.
Qed.

(** While the configuration error is displayed and no identity fetch is
    in flight, no event issues a gateway call or touches the error. *)
Lemma step_config_error (w : World) (ev : Event) :
  error (app w) = Some missing_replyip_message ->
  userDataPending w = false ->
  error (app (step w ev)) = Some missing_replyip_message
  /\ userDataPending (step w ev) = false
  /\ user (app (step w ev)) = user (app w)
  /\ apiBaseUrl (app (step w ev)) = apiBaseUrl (app w)
  /\ calls (step w ev) = calls w.
Proof.
  intros He Hp.
  destruct (handle_config_error w ev He Hp) as (He' & Hp' & Hu & Hb & Hc).
  unfold step; cbn [app calls userDataPending webApp].
  rewrite (renderPage_error (app w) _ He missing_replyip_message_nonempty).
  rewrite (renderPage_error (app (handle ev w)) _ He' missing_replyip_message_nonempty).
  unfold mount_effects. rewrite decide_True by reflexivity.
  rewrite app_nil_r. auto.
Qed.

Lemma run_config_error (evs : list Event) (w : World) :
  error (app w) = Some missing_replyip_message ->
  userDataPending w = false ->
  error (app (run w evs)) = Some missing_replyip_message
  /\ user (app (run w evs)) = user (app w)
  /\ apiBaseUrl (app (run w evs)) = apiBaseUrl (app w)
  /\ calls (run w evs) = calls w.
Proof.
  revert w. induction evs as [|ev evs IH]; intros w He Hp; simpl.
  - auto.
  - destruct (step_config_error w ev He Hp) as (He' & Hp' & Hu & Hb & Hc).
    destruct (IH (step w ev) He' Hp') as (H1 & H2 & H3 & H4).
    rewrite H1, H2, H3, H4, Hu, Hb, Hc. auto.
Qed.

(** C4.  When the launch URL has no [replyip] parameter, the
    application is in the configuration-error state from start-up on and
    stays there whatever happens next: the error cell holds the
    (non-empty) configuration message, the error screen is drawn, the
    identity is never loaded, and the list of gateway calls issued is
    empty; in particular [fetchUserData] is never called. *)
Theorem missing_replyip_is_fatal_without_calls
    (b : bool) (params : list (string * string)) (evs : list Event) :
  URLSearchParams_get "replyip" params = None ->
  let w := run (start b (SearchParams params)) evs in
  error (app w) = Some missing_replyip_message
  /\ missing_replyip_message <> ""
  /\ renderPage (app w) = ErrorDisplay missing_replyip_message
  /\ user (app w) = None
  /\ apiBaseUrl (app w) = ""
  /\ calls w = [].
Proof.
  intros Hget w. subst w.
  rewrite start_without_replyip by (rewrite Hget; reflexivity).
  match goal with
  | |- context [run ?w0 evs] =>
      destruct (run_config_error evs w0 eq_refl eq_refl) as (H1 & H2 & H3 & H4)
  end.
  rewrite H1, H2, H3, H4. simpl.
  repeat split; try apply missing_replyip_message_nonempty.
  apply renderPage_error; [exact H1|apply missing_replyip_message_nonempty].
Qed.

Lemma missing_replyip_is_fatal_without_calls_witness :
  let w := run (start true (SearchParams [("startapp", "x")]))
               [Back; Navigate myGroups; SelectGroup "g1"; Retry;
                UserDataSettled (Fulfilled (mkUser "1" "Ann" role_admin));
                SubmitTask [("title", "t")]] in
  error (app w) = Some missing_replyip_message
  /\ missing_replyip_message <> ""
  /\ renderPage (app w) = ErrorDisplay missing_replyip_message
  /\ user (app w) = None
  /\ apiBaseUrl (app w) = ""
  /\ calls w = [].
Proof.
  exact (missing_replyip_is_fatal_without_calls true [("startapp", "x")]
           [Back; Navigate myGroups; SelectGroup "g1"; Retry;
            UserDataSettled (Fulfilled (mkUser "1" "Ann" role_admin));
            SubmitTask [("title", "t")]] eq_refl).
Defined.

(** X22.  The same holds when the first [replyip] parameter is present
    but empty: the configuration error is drawn in every later state and
    no gateway call is issued. *)
Lemma empty_replyip_is_fatal_without_calls
    (b : bool) (params : list (string * string)) (evs : list Event) :
  URLSearchParams_get "replyip" params = Some "" ->
  let w := run (start b (SearchParams params)) evs in
  renderPage (app w) = ErrorDisplay missing_replyip_message /\ calls w = [].
Proof.
  intros Hget w. subst w.
  rewrite start_without_replyip by (rewrite Hget; reflexivity).
  match goal with
  | |- context [run ?w0 evs] =>
      destruct (run_config_error evs w0 eq_refl eq_refl) as (H1 & H2 & H3 & H4)
  end.
  rewrite H4. split; [|reflexivity].
  apply renderPage_error; [exact H1|apply missing_replyip_message_nonempty].
Qed.

(** ** Start-up: the identity and the initial page *)

Lemma start_with_replyip (b : bool) (params : list (string * string)) (replyIp : string) :
  URLSearchParams_get "replyip" params = Some replyIp ->
  replyIp <> "" ->
  start b (SearchParams params)
  = {| app := set_error None (set_apiBaseUrl replyIp initial);
       webApp := b; calls := [fetchUserData]; userDataPending := true |}.
Proof.
  intros Hget Hne. unfold start, init_effect. rewrite Hget.
  rewrite (if_truthy_nonempty replyIp _ _ Hne).
  unfold identity_effect; cbn [app apiBaseUrl set_apiBaseUrl].
  rewrite (proj2 (truthy_Some_nonempty replyIp) Hne). reflexivity.
Qed.

Lemma renderPage_loading (s : App) :
  error s = None -> user s = None -> renderPage s = Loading.
Proof. intros He Hu. unfold renderPage. rewrite He, Hu. reflexivity. Qed.

Lemma step_awaiting_identity (w : World) (ev : Event) :
  awaiting_identity w ->
  (forall r, ev <> UserDataSettled r) ->
  awaiting_identity (step w ev).
Proof.
  intros (Hp & Hu & He & Ht & Hg) Hev.
  pose proof (renderPage_loading (app w) He Hu) as Hv.
  unfold awaiting_identity. rewrite app_step.
  destruct ev as [page| |taskId|groupId|r| |fd|fd];
    unfold step, handle; rewrite ?Hv; cbn [app userDataPending]; auto.
  - unfold handleBack. rewrite Ht, Hg. simpl.
    destruct (webApp w); simpl; auto.
  - exfalso. now apply (Hev r).
Qed.

Lemma run_awaiting_identity (evs : list Event) (w : World) :
  awaiting_identity w ->
  Forall (fun ev => forall r, ev <> UserDataSettled r) evs ->
  awaiting_identity (run w evs).
Proof.
  revert w. induction evs as [|ev evs IH]; intros w Hw Hevs; simpl.
  - exact Hw.
  - inversion Hevs; subst. apply IH; [|assumption].
    now apply step_awaiting_identity.
Qed.

(** Once the identity fetch has settled, no event other than an explicit
    [Navigate adminCreateTask] makes [adminCreateTask] the current page. *)
Lemma step_no_redirect (w : World) (ev : Event) :
  userDataPending w = false ->
  currentPage (app w) <> adminCreateTask ->
  ev <> Navigate adminCreateTask ->
  userDataPending (step w ev) = false
  /\ currentPage (app (step w ev)) <> adminCreateTask.
Proof.
  intros Hp Hc Hev.
  destruct ev as [page| |taskId|groupId|r| |fd|fd];
    unfold step, handle; rewrite ?Hp; cbn [app userDataPending].
  - split; [reflexivity|]. simpl. intros ->. now apply Hev.
  - split; [reflexivity|]. unfold handleBack.
    destruct (truthy (selectedTaskId (app w)) || truthy (selectedGroupId (app w))).
    + destruct (truthy (selectedTaskId (app w))); simpl; discriminate.
    + destruct (webApp w); simpl; [discriminate|assumption].
  - destruct (renderPage (app w)); cbn [app userDataPending];
      split; try assumption; try reflexivity; simpl; discriminate.
  - destruct (renderPage (app w)); cbn [app userDataPending];
      split; try assumption; try reflexivity; simpl; discriminate.
  - split; [reflexivity|assumption].
  - split; [reflexivity|assumption].
  - destruct (renderPage (app w)); cbn [app userDataPending];
      split; try assumption; reflexivity.
  - destruct (renderPage (app w)); cbn [app userDataPending];
      split; try assumption; reflexivity.
Qed.

Lemma run_no_redirect (evs : list Event) (w : World) :
  userDataPending w = false ->
  currentPage (app w) <> adminCreateTask ->
  Forall (fun ev => ev <> Navigate adminCreateTask) evs ->
  currentPage (app (run w evs)) <> adminCreateTask.
Proof.
  revert w. induction evs as [|ev evs IH]; intros w Hp Hc Hevs; simpl.
  - exact Hc.
  - inversion Hevs; subst.
    destruct (step_no_redirect w ev Hp Hc) as [Hp' Hc']; [assumption|].
    now apply IH.
Qed.

(** A settled identity promise does not fire again. *)
Lemma run_settled_again (rs : list (Settled User)) (w : World) :
  userDataPending w = false ->
  run w (map UserDataSettled rs) = w.
Proof.
  intros Hp. induction rs as [|r rs IH]; simpl; [reflexivity|].
  assert (Hs : step w (UserDataSettled r) = w).
  { unfold step, handle. rewrite Hp. unfold mount_effects.
    rewrite decide_True by reflexivity. rewrite app_nil_r. now destruct w. }
  fold (run (step w (UserDataSettled r)) (map UserDataSettled rs)).
  rewrite Hs. exact IH.
Qed.

(** C8.  When the identity arrives, the current page is set once from
    the role: [adminCreateTask] (and the task-creation form is drawn) for
    an admin, [myTasks] (and the tasks list is drawn) for a user.  A later
    [handleNavigate('myTasks')] by the admin is honoured: the tasks list
    is drawn, and from then on nothing but an explicit navigation to
    [adminCreateTask] brings that page back; the identity promise, once
    settled, changes nothing any more. *)
Theorem admin_redirect_happens_once
    (b : bool) (params : list (string * string)) (replyIp : string)
    (u : User) (pre evs : list Event) :
  URLSearchParams_get "replyip" params = Some replyIp ->
  replyIp <> "" ->
  Forall (fun ev => forall r, ev <> UserDataSettled r) pre ->
  Forall (fun ev => ev <> Navigate adminCreateTask) evs ->
  let loaded :=
    step (run (start b (SearchParams params)) pre) (UserDataSettled (Fulfilled u)) in
  let navigated := step loaded (Navigate myTasks) in
  user (app loaded) = Some u
  /\ currentPage (app loaded)
     = match role u with role_admin => adminCreateTask | role_user => myTasks end
  /\ renderPage (app loaded)
     = match role u with role_admin => PageAdminCreateTask | role_user => PageMyTasks end
  /\ currentPage (app navigated) = myTasks
  /\ renderPage (app navigated) = PageMyTasks
  /\ currentPage (app (run navigated evs)) <> adminCreateTask
  /\ (forall rs, run navigated (map UserDataSettled rs) = navigated).
Proof.
  intros Hget Hne Hpre Hevs loaded navigated.
  assert (Hw : awaiting_identity (run (start b (SearchParams params)) pre)).
  { apply run_awaiting_identity; [|exact Hpre].
    rewrite (start_with_replyip b params replyIp Hget Hne).
    repeat split. }
  destruct Hw as (Hp & Hu & He & Ht & Hg).
  set (w := run (start b (SearchParams params)) pre) in *.
  assert (Happ : app loaded = on_user_data (Fulfilled u) (app w)).
  { subst loaded. unfold step, handle. rewrite Hp. reflexivity. }
  assert (Hpl : userDataPending loaded = false).
  { subst loaded. unfold step, handle. rewrite Hp. reflexivity. }
  assert (Hrender : forall p, renderPage (set_user_and_page u p (app w)) = mainPage p).
  { intros p. unfold renderPage; simpl. rewrite He, Ht, Hg. reflexivity. }
  assert (Hnav : app navigated = handleNavigate myTasks (app loaded)) by reflexivity.
  assert (Hpn : userDataPending navigated = false) by exact Hpl.
  repeat split.
  - rewrite Happ. simpl. destruct (role u); reflexivity.
  - rewrite Happ. simpl. destruct (role u); reflexivity.
  - rewrite Happ. simpl. destruct (role u); apply Hrender.
  - rewrite Hnav, Happ. unfold renderPage. simpl.
    destruct (role u); simpl; rewrite He; reflexivity.
  - apply run_no_redirect; [exact Hpn| |exact Hevs].
    rewrite Hnav. simpl. discriminate.
  - intros rs. now apply run_settled_again.
Qed.

Lemma admin_redirect_happens_once_witness :
  let admin := mkUser "7" "Ann" role_admin in
  let loaded :=
    step (run (start true (SearchParams [("replyip", "https://api.example")])) [Back])
         (UserDataSettled (Fulfilled admin)) in
  let navigated := step loaded (Navigate myTasks) in
  user (app loaded) = Some admin
  /\ currentPage (app loaded) = adminCreateTask
  /\ renderPage (app loaded) = PageAdminCreateTask
  /\ currentPage (app navigated) = myTasks
  /\ renderPage (app navigated) = PageMyTasks
  /\ currentPage
       (app (run navigated
               [UserDataSettled (Fulfilled admin); Back; Navigate myGroups;
                SelectGroup "g1"; Back])) <> adminCreateTask
  /\ (forall rs, run navigated (map UserDataSettled rs) = navigated).
Proof.
  refine (admin_redirect_happens_once true [("replyip", "https://api.example")]
            "https://api.example" (mkUser "7" "Ann" role_admin) [Back]
            [UserDataSettled (Fulfilled (mkUser "7" "Ann" role_admin)); Back;
             Navigate myGroups; SelectGroup "g1"; Back]
            eq_refl _ _ _).
  - discriminate.
  - repeat constructor; discriminate.
  - repeat constructor; discriminate.
Defined.

(** ** Task creation: required fields *)

Import PageAdminCreateTask.

Lemma last_value_snoc (name k v : string) (entries : list (string * string)) :
  last_value name (entries ++ [(k, v)])
  = if String.eqb k name then Some v else last_value name entries.
Proof.
  induction entries as [|[k' v'] entries IH]; simpl.
  - reflexivity.
  - rewrite IH. destruct (String.eqb k name); [reflexivity|].
    destruct (last_value name entries); reflexivity.
Qed.

(** [Object.fromEntries] keeps, for each name, the value of its last entry. *)
Lemma fromEntries_lookup (name : string) (entries : list (string * string)) :
  fromEntries entries !! name = last_value name entries.
Proof.
  unfold fromEntries.
  induction entries as [|[k v] entries IH] using rev_ind; simpl.
  - apply lookup_empty.
  - rewrite foldl_app, last_value_snoc. simpl.
    destruct (String.eqb_spec k name) as [->|Hne].
    + apply lookup_insert_eq.
    + rewrite lookup_insert_ne by exact Hne. exact IH.
Qed.

(** C9.  When one of the mandatory fields [title], [project], [group],
    [assignee] is missing from the submitted form or empty, [handleSubmit]
    returns before its first [await] with the required-fields message in
    [error] and [isLoading] reset, and it has issued no gateway call; the
    submission adds nothing to the calls of the application either. *)
Theorem handleSubmit_blocks_incomplete_form
    (formData : list (string * string)) (field : string) (s : State) (w : World) :
  field ∈ mandatory ->
  last_value field formData = None \/ last_value field formData = Some "" ->
  handleSubmit formData s
  = ({| isLoading := false; error := Some required_fields_message |}, [])
  /\ calls (Nav.step w (SubmitTask formData)) = calls w.
Proof.
  intros Hin Hval.
  assert (Hfalsy : truthy (fromEntries formData !! field) = false).
  { rewrite fromEntries_lookup. destruct Hval as [-> | ->]; reflexivity. }
  assert (Hsub : forall s0, handleSubmit formData s0
            = ({| isLoading := false; error := Some required_fields_message |}, [])).
  { intros s0. unfold handleSubmit, mandatory in *.
    apply list_elem_of_In in Hin. simpl in Hin.
    destruct Hin as [<-|[<-|[<-|[<-|[]]]]]; rewrite Hfalsy; simpl;
      rewrite ?orb_true_r; reflexivity. }
  split; [apply Hsub|].
  unfold Nav.step, handle.
  destruct (renderPage (app w)) eqn:Hv; cbn [app calls];
    rewrite ?Hv, ?Hsub; unfold mount_effects;
    rewrite decide_True by reflexivity; simpl; now rewrite ?app_nil_r.
Qed.

Lemma handleSubmit_blocks_incomplete_form_witness :
  let formData :=
    [("title", "Report"); ("project", "Core"); ("group", "g1"); ("assignee", "")] in
  let w := run (start true (SearchParams [("replyip", "https://api.example")]))
               [UserDataSettled (Fulfilled (mkUser "7" "Ann" role_admin))] in
  handleSubmit formData PageAdminCreateTask.initial
  = ({| isLoading := false; error := Some required_fields_message |}, [])
  /\ calls (Nav.step w (SubmitTask formData)) = calls w.
Proof.
  refine (handleSubmit_blocks_incomplete_form
            [("title", "Report"); ("project", "Core"); ("group", "g1"); ("assignee", "")]
            "assignee" PageAdminCreateTask.initial _ _ _).
  - unfold mandatory. apply list_elem_of_In. simpl. auto.
  - right. reflexivity.
Defined.

(** A form with the four fields filled in does reach the gateway. *)
Lemma handleSubmit_complete_form_example :
  let formData :=
    [("title", "Report"); ("project", "Core"); ("group", "g1"); ("assignee", "42")] in
  handleSubmit formData PageAdminCreateTask.initial
  = ({| isLoading := true; error := None |}, [createTask (fromEntries formData)]).
Proof. vm_compute. reflexivity. Qed.

(** ** Screen controllers: late completions *)

Import Controller Sample.


(** Both fetches are indeed in flight when B is issued, and B's result
    is on display before A's arrives. *)
Lemma stale_completion_trace_example :
  let s1 := PageTaskDetails.run (PageTaskDetails.mount "A") [Render "B"] in
  let s2 := PageTaskDetails.step s1 (Settle 1 (Fulfilled (Some detailsB))) in
  pending s1 !! 0 = Some "A"
  /\ pending s1 !! 1 = Some "B"
  /\ PageTaskDetails.task s1 = None
  /\ PageTaskDetails.task s2 = Some detailsB
  /\ pending s2 !! 0 = Some "A".
Proof. vm_compute. repeat split. Qed.



(** A completion for a fetch that is not in flight changes nothing. *)
Lemma unknown_completion_ignored
    {T : Type} (guarded : bool) (s : State T) (n : nat) (r : Settled (option T)) :
  pending s !! n = None -> step guarded s (Settle n r) = s.
Proof. intros Hn. unfold step. now rewrite Hn. Qed.

(** A changed key issues exactly one new fetch and leaves the earlier
    ones in flight. *)
Lemma render_new_key_issues_fetch
    {T : Type} (s : State T) (k : string) :
  k <> key s -> k <> "" ->
  step true s (Render k)
  = {| key := k; data := None; error := None;
       pending := <[next s := k]> (pending s); next := S (next s) |}.
Proof.
  intros Hk Hne. unfold step.
  destruct (String.eqb_spec k (key s)); [contradiction|].
  unfold load. cbn [key set_key data Controller.error pending next].
  rewrite (proj2 (truthy_Some_nonempty k) Hne). reflexivity.
Qed.

(** In the application the key of a details page on screen does not
    change: a selection changes only through a list page. *)
Lemma renderPage_task_details (s : App) (t : string) :
  renderPage s = PageTaskDetails t -> selectedTaskId s = Some t /\ task_selected s = true.
Proof.
  intros Hv.
  assert (H : ScreenPrecedence s (PageTaskDetails t))
    by (rewrite <- Hv; apply renderPage_sound).
  inversion H; subst.
  - split; [assumption|]. unfold task_selected.
    match goal with Hs : selectedTaskId s = Some _ |- _ => rewrite Hs end.
    now apply truthy_Some_nonempty.
  - destruct (currentPage s); discriminate.
Qed.

(** X23.  Across an event of the running application, a task-details
    page that stays on screen keeps its task id. *)
Lemma details_key_stable (w : World) (ev : Nav.Event) (a b : string) :
  renderPage (app w) = PageTaskDetails a ->
  renderPage (app (Nav.step w ev)) = PageTaskDetails b ->
  a = b.
Proof.
  intros Ha Hb.
  destruct (renderPage_task_details _ _ Ha) as [Hsa Hta].
  destruct (renderPage_task_details _ _ Hb) as [Hsb _].
  rewrite app_step in Hsb.
  destruct ev as [page| |taskId|groupId|r| |fd|fd]; unfold handle in Hsb;
    rewrite ?Ha in Hsb; cbn [app] in Hsb; try congruence.
  - discriminate.
  - unfold handleBack in Hsb. unfold task_selected in Hta.
    rewrite Hta in Hsb. discriminate.
  - destruct (userDataPending w); cbn [app] in Hsb; [|congruence].
    rewrite (proj1 (on_user_data_selections r (app w))) in Hsb. congruence.
Qed.

(** ** Gateway: error normalisation *)

(** What the [try] block throws for a JSON error body is the message
    the code's comment announces ... *)
Lemma try_block_throws_message_field :
  fst (try_block response404) = Rejected (Error "API Error (404): not found").
Proof. reflexivity. Qed.

(** ... and on a response whose body has not been read, the [catch]
    block throws the raw text. *)
Lemma catch_block_on_unread_body :
  fst (catch_block response500)
  = Rejected (Error "API Error (500): Internal Server Error").
Proof. reflexivity. Qed.

(** Were the body readable a second time, the [catch] block would
    still report the raw text of a JSON body, not its message field. *)
Lemma catch_block_on_json_body :
  fst (catch_block response404)
  = Rejected (Error ("API Error (404): " ++ not_found_text)).
Proof. reflexivity. Qed.

(** The [try] block always ends in an exception, and leaves a non-null
    body read. *)
Lemma try_block_always_throws (r : Response) :
  bodyUsed r = false ->
  exists e, try_block r = (Rejected e, disturb r).
Proof.
  intros Hfresh. unfold try_block, bind, json, lift, get, throw.
  rewrite Hfresh.
  destruct (body r) as [|t v|t]; try (eexists; reflexivity).
  destruct (get_message v); eexists; reflexivity.
Qed.

(** Every non-success response that has a body makes [apiFetch] reject
    with the [TypeError] of the second read: the exception of the [try]
    block, also the one it throws itself, lands in the [catch] block,
    which calls [response.text()] on the body [response.json()] has read. *)
Lemma apiFetch_error_with_body (r : Response) :
  ok r = false ->
  bodyUsed r = false ->
  body r <> NoBody ->
  apiFetch (Fulfilled r) = Rejected (TypeError body_used_message).
Proof.
  intros Hok Hfresh Hbody.
  destruct (try_block_always_throws r Hfresh) as [e He].
  unfold apiFetch, decode, bind, get, try_catch. rewrite Hok. simpl.
  rewrite He. unfold catch_block, bind, text.
  destruct (body r) eqn:Hb; [contradiction| |]; unfold disturb; rewrite Hb; reflexivity.
Qed.

(** Only a response without body gets a normalised message, built from
    the status text. *)
Lemma apiFetch_error_without_body (r : Response) :
  ok r = false ->
  bodyUsed r = false ->
  body r = NoBody ->
  apiFetch (Fulfilled r) = Rejected (Error (api_error r (statusText r))).
Proof.
  intros Hok Hfresh Hbody.
  unfold apiFetch, decode, bind, get, try_catch. rewrite Hok. simpl.
  destruct r as [st stText ct b used]; simpl in *; subst. reflexivity.
Qed.

(** C1.  The two responses of the specification, run through
    [apiFetch]: for status 404 with body [{"message":"not found"}] and
    for status 500 with the non-JSON body [Internal Server Error], the
    promise is rejected with the platform's [TypeError] for a body read
    twice, whose message is neither [API Error (404): not found] nor
    [API Error (500): Internal Server Error]. *)
Theorem apiFetch_spec_responses :
  apiFetch (Fulfilled response404) = Rejected (TypeError body_used_message)
  /\ apiFetch (Fulfilled response500) = Rejected (TypeError body_used_message)
  /\ message (TypeError body_used_message) <> "API Error (404): not found"
  /\ message (TypeError body_used_message) <> "API Error (500): Internal Server Error".
Proof. repeat split; discriminate. Qed.

(** Success responses: a JSON content type decodes the body, anything
    else yields [null]. *)
Lemma apiFetch_no_content_example :
  apiFetch (Fulfilled (fresh 204 "No Content" None NoBody)) = Fulfilled None.
Proof. reflexivity. Qed.

Lemma apiFetch_json_success_example :
  apiFetch (Fulfilled (fresh 200 "OK" (Some "application/json; charset=utf-8")
                         (JsonText "[]" (JArray []))))
  = Fulfilled (Some (JArray [])).
Proof. reflexivity. Qed.

(** ** The error cell *)

(** Every message the application stores in its error cell is
    non-empty, so that a session error that is set is also drawn. *)
Lemma run_error_nonempty (evs : list Nav.Event) (w : World) :
  (forall m, Nav.error (app w) = Some m -> m <> "") ->
  forall m, Nav.error (app (Nav.run w evs)) = Some m -> m <> "".
Proof.
  revert w. induction evs as [|ev evs IH]; intros w Hw; simpl; [exact Hw|].
  apply IH. rewrite app_step.
  destruct ev as [page| |taskId|groupId|r| |fd|fd]; unfold handle;
    cbn [app]; try exact Hw.
  - intros m. rewrite (proj1 (handleBack_frame (webApp w) (app w))). apply Hw.
  - destruct (renderPage (app w)); exact Hw.
  - destruct (renderPage (app w)); exact Hw.
  - destruct (userDataPending w); [|exact Hw]. cbn [app].
    destruct r as [u|e]; simpl.
    + destruct (role u); exact Hw.
    + intros m [= <-]. discriminate.
  - destruct (renderPage (app w)); exact Hw.
  - destruct (renderPage (app w)); exact Hw.
Qed.

(** X24.  In every state the application reaches, a message held
    by the error cell is non-empty and is the one on the error screen. *)
Lemma reachable_error_nonempty
    (b : bool) (search : Search) (evs : list Nav.Event) (m : string) :
  Nav.error (app (Nav.run (start b search) evs)) = Some m ->
  m <> "" /\ renderPage (app (Nav.run (start b search) evs)) = ErrorDisplay m.
Proof.
  intros He.
  assert (Hm : m <> "").
  { apply (run_error_nonempty evs (start b search)); [|exact He].
    intros m0. unfold start, identity_effect, init_effect.
    destruct search as [params|e]; simpl.
    - destruct (URLSearchParams_get "replyip" params) as [ip|]; simpl.
      + destruct (String.eqb ip "") eqn:Hip; simpl.
        * intros [= <-]. discriminate.
        * rewrite Hip. simpl. discriminate.
      + intros [= <-]. discriminate.
    - intros [= <-]. discriminate. }
  split; [exact Hm|]. now apply renderPage_error.
Qed.

(** * Further properties of the code *)

(** ** Gateway: the request *)

(** X1.  Every request carries [Authorization: tma <initData>] exactly
    when the host's [initData] is a non-empty string; that header then
    replaces one the caller supplied.  Without [initData] (no bridge, or
    an empty string) [apiFetch] leaves the caller's header alone, and the
    operations of [createApiService], which pass no headers, send no
    [Authorization] at all. *)
Theorem request_authorization_header
    (tgInitData : option string) (apiBaseUrl endpoint : string)
    (options : Request.RequestInit) (call : ApiCall) :
  Request.headers (Request.init
      (Request.apiFetch_request tgInitData apiBaseUrl endpoint options))
    !! "authorization"
  = if_truthy tgInitData (fun d => Some ("tma " ++ d))
      (Request.headers options !! "authorization")
  /\ Request.headers (Request.init
         (Request.createApiService tgInitData apiBaseUrl call))
       !! "authorization"
     = if_truthy tgInitData (fun d => Some ("tma " ++ d)) None.
Proof.
  assert (Hgen : forall ep opts,
    Request.headers (Request.init
        (Request.apiFetch_request tgInitData apiBaseUrl ep opts))
      !! "authorization"
    = if_truthy tgInitData (fun d => Some ("tma " ++ d))
        (Request.headers opts !! "authorization")).
  { intros ep opts. unfold Request.apiFetch_request. cbn [Request.init Request.headers].
    assert (Hct : forall h : gmap string string,
      match Request.body opts with
      | Some b => if Request.is_FormData b then h
                  else <["content-type" := "application/json"]> h
      | None => h
      end !! "authorization" = h !! "authorization").
    { intros h. destruct (Request.body opts) as [bd|]; [|reflexivity].
      destruct (Request.is_FormData bd); [reflexivity|].
      now rewrite lookup_insert_ne. }
    rewrite Hct.
    destruct tgInitData as [d|]; simpl; [|reflexivity].
    destruct (String.eqb d ""); [reflexivity|]. apply lookup_insert_eq. }
  split; [apply Hgen|].
  unfold Request.createApiService. rewrite Hgen.
  destruct call; simpl; rewrite lookup_empty; reflexivity.
Qed.

(** X2.  [apiFetch] sets [Content-Type: application/json] exactly on a
    request that has a body which is not a [FormData]; so of the
    operations of [createApiService] the three JSON posts
    ([fetchUserData], [fetchTaskDetails], [createTask]) carry it, while
    [createGroup] (whose multipart boundary the browser must choose) and
    the four reads carry no [Content-Type]. *)
Theorem request_content_type
    (tgInitData : option string) (apiBaseUrl : string) (call : ApiCall) :
  Request.headers (Request.init
      (Request.createApiService tgInitData apiBaseUrl call))
    !! "content-type"
  = match call with
    | fetchUserData | fetchTaskDetails _ | createTask _ => Some "application/json"
    | createGroup _ | fetchUserTasks | fetchUserGroups
    | fetchGroupDetails _ | fetchAllGroups => None
    end.
Proof.
  assert (Hauth : forall h : gmap string string,
    if_truthy tgInitData (fun d => <["authorization" := "tma " ++ d]> h) h
      !! "content-type" = h !! "content-type").
  { intros h. destruct tgInitData as [d|]; simpl; [|reflexivity].
    destruct (String.eqb d ""); [reflexivity|]. now rewrite lookup_insert_ne. }
  unfold Request.createApiService, Request.apiFetch_request.
  cbn [Request.init Request.headers].
  destruct call; cbn [Request.options Request.body Request.headers Request.is_FormData];
    rewrite ?lookup_insert_eq, ?Hauth, ?lookup_empty; reflexivity.
Qed.

(** X3.  Every operation addresses the base address followed by its
    own path under [/api/].  [fetchUserTasks], [fetchUserGroups],
    [fetchGroupDetails] and [fetchAllGroups] are [GET] requests without
    body; [fetchUserData], [fetchTaskDetails], [createTask] and
    [createGroup] are [POST] requests whose body is, in this order, the
    stringified [{ initData }], the stringified [{ taskId }], the
    stringified record and the form data. *)
Theorem request_url_and_method
    (tgInitData : option string) (apiBaseUrl : string) (call : ApiCall) :
  let args := Request.createApiService tgInitData apiBaseUrl call in
  Request.url args
  = apiBaseUrl ++ match call with
                  | fetchUserData => "/api/auth/me"
                  | fetchUserTasks => "/api/user/tasks"
                  | fetchTaskDetails _ => "/api/taskDetails"
                  | fetchUserGroups => "/api/user/groups"
                  | fetchGroupDetails groupId => "/api/groups/" ++ groupId
                  | createTask _ => "/api/tasks"
                  | createGroup _ => "/api/groups"
                  | fetchAllGroups => "/api/admin/groups/all"
                  end
  /\ Request.url args = apiBaseUrl ++ Request.endpoint call
  /\ String.prefix "/api/" (Request.endpoint call) = true
  /\ Request.method (Request.init args)
     = match call with
       | fetchUserTasks | fetchUserGroups | fetchGroupDetails _ | fetchAllGroups =>
           Some "GET"
       | fetchUserData | fetchTaskDetails _ | createTask _ | createGroup _ =>
           Some "POST"
       end
  /\ Request.body (Request.init args)
     = match call with
       | fetchUserTasks | fetchUserGroups | fetchGroupDetails _ | fetchAllGroups =>
           None
       | fetchUserData =>
           Some (Request.JsonOfObject
                   match tgInitData with
                   | Some d => [("initData", JString d)]
                   | None => []
                   end)
       | fetchTaskDetails taskId =>
           Some (Request.JsonOfObject [("taskId", JString taskId)])
       | createTask data => Some (Request.JsonOfRecord data)
       | createGroup data => Some (Request.FormDataBody data)
       end
  /\ (Request.method (Request.init args) = Some "GET"
      /\ Request.body (Request.init args) = None
      \/ Request.method (Request.init args) = Some "POST"
         /\ Request.body (Request.init args) <> None).
Proof.
  destruct call; simpl; repeat split; auto; right; split; auto; discriminate.
Qed.

(** ** Gateway: the response *)



(** X5.  A success response whose content type is absent or does not
    mention [application/json] resolves to [null], and its body is not
    read, whatever it holds. *)
Theorem apiFetch_success_without_json_type (r : Response) :
  ok r = true ->
  match contentType r with
  | Some ct => includes ct "application/json" = false
  | None => True
  end ->
  decode r = (Fulfilled None, r).
Proof.
  intros Hok Hct. unfold decode, bind, get. rewrite Hok. simpl.
  destruct (contentType r) as [ct|]; [|reflexivity].
  rewrite Hct. reflexivity.
Qed.

Lemma apiFetch_success_without_json_type_witness :
  decode (fresh 200 "OK" (Some "text/plain") (JsonText "[]" (JArray [])))
  = (Fulfilled None, fresh 200 "OK" (Some "text/plain") (JsonText "[]" (JArray []))).
Proof.
  apply apiFetch_success_without_json_type; reflexivity.
Defined.

(** X6.  A success response that declares [application/json] is decoded
    from its body: a JSON body gives its value, while an empty, null or
    otherwise malformed body makes [apiFetch] reject with the parser's
    [SyntaxError] (its message is the engine's), never with an [Error]
    carrying an [API Error (...)] message. *)
Theorem apiFetch_success_with_json_type (r : Response) (ct : string) :
  ok r = true ->
  bodyUsed r = false ->
  contentType r = Some ct ->
  includes ct "application/json" = true ->
  match body r with
  | JsonText _ v => apiFetch (Fulfilled r) = Fulfilled (Some v)
  | PlainText _ | NoBody =>
      exists m, apiFetch (Fulfilled r) = Rejected (SyntaxError m)
  end.
Proof.
  intros Hok Hfresh Hct Hinc.
  unfold apiFetch, decode, bind, get. rewrite Hok, Hct, Hinc. simpl.
  unfold json. rewrite Hfresh.
  destruct (body r); try reflexivity; eexists; reflexivity.
Qed.

Lemma apiFetch_success_with_json_type_witness :
  exists m,
    apiFetch (Fulfilled (fresh 200 "OK" (Some "application/json") (PlainText "")))
    = Rejected (SyntaxError m).
Proof.
  exact (apiFetch_success_with_json_type
           (fresh 200 "OK" (Some "application/json") (PlainText ""))
           "application/json" eq_refl eq_refl eq_refl eq_refl).
Defined.

(** ** Start-up failures *)

Lemma handle_fatal_error (w : World) (ev : Nav.Event) (m : string) :
  Nav.error (app w) = Some m ->
  m <> "" ->
  userDataPending w = false ->
  Nav.error (app (handle ev w)) = Some m
  /\ userDataPending (handle ev w) = false
  /\ user (app (handle ev w)) = user (app w)
  /\ calls (handle ev w) = calls w.
Proof.
  intros He Hm Hp.
  pose proof (renderPage_error (app w) _ He Hm) as Hv.
  destruct ev as [page| |taskId|groupId|r| |fd|fd]; unfold handle;
    rewrite ?Hv, ?Hp; cbn [app calls userDataPending webApp page_fetch];
    rewrite ?app_nil_r; auto.
  destruct (handleBack_frame (webApp w) (app w)) as (-> & -> & _). auto.
Qed.

Lemma run_fatal_error (evs : list Nav.Event) (w : World) (m : string) :
  Nav.error (app w) = Some m ->
  m <> "" ->
  userDataPending w = false ->
  Nav.error (app (Nav.run w evs)) = Some m
  /\ user (app (Nav.run w evs)) = user (app w)
  /\ calls (Nav.run w evs) = calls w.
Proof.
  revert w. induction evs as [|ev evs IH]; intros w He Hm Hp; simpl; [auto|].
  destruct (handle_fatal_error w ev m He Hm Hp) as (He' & Hp' & Hu & Hc).
  assert (Hstep : Nav.error (app (Nav.step w ev)) = Some m
                  /\ userDataPending (Nav.step w ev) = false
                  /\ user (app (Nav.step w ev)) = user (app w)
                  /\ calls (Nav.step w ev) = calls w).
  { unfold Nav.step; cbn [app calls userDataPending].
    rewrite (renderPage_error (app w) _ He Hm).
    rewrite (renderPage_error (app (handle ev w)) _ He' Hm).
    unfold mount_effects. rewrite decide_True by reflexivity.
    rewrite app_nil_r. auto. }
  destruct Hstep as (He2 & Hp2 & Hu2 & Hc2).
  destruct (IH (Nav.step w ev) He2 Hm Hp2) as (H1 & H2 & H3).
  fold (Nav.run (Nav.step w ev) evs).
  rewrite H1, H2, H3, Hu2, Hc2. auto.
Qed.

(** While the identity is awaited, no event but its arrival issues a
    gateway call, and the loading screen stays. *)
Lemma step_awaiting_calls (w : World) (ev : Nav.Event) :
  awaiting_identity w ->
  (forall r, ev <> UserDataSettled r) ->
  calls (Nav.step w ev) = calls w.
Proof.
  intros Hw Hev.
  pose proof (step_awaiting_identity w ev Hw Hev) as Hw'.
  destruct Hw as (Hp & Hu & He & Ht & Hg).
  destruct Hw' as (Hp' & Hu' & He' & Ht' & Hg').
  pose proof (renderPage_loading (app w) He Hu) as Hv.
  pose proof (renderPage_loading _ He' Hu') as Hv'.
  unfold Nav.step in *; cbn [app calls userDataPending] in *.
  rewrite Hv, Hv'. unfold mount_effects. rewrite decide_True by reflexivity.
  rewrite app_nil_r.
  destruct ev as [page| |taskId|groupId|r| |fd|fd]; unfold handle;
    rewrite ?Hv; cbn [calls page_fetch]; rewrite ?app_nil_r; try reflexivity.
  exfalso. now apply (Hev r).
Qed.

Lemma run_awaiting_calls (evs : list Nav.Event) (w : World) :
  awaiting_identity w ->
  Forall (fun ev => forall r, ev <> UserDataSettled r) evs ->
  calls (Nav.run w evs) = calls w.
Proof.
  revert w. induction evs as [|ev evs IH]; intros w Hw Hevs; simpl; [reflexivity|].
  inversion Hevs; subst.
  fold (Nav.run (Nav.step w ev) evs).
  rewrite IH; [|now apply step_awaiting_identity|assumption].
  now apply step_awaiting_calls.
Qed.

Lemma start_awaiting (b : bool) (params : list (string * string)) (replyIp : string) :
  URLSearchParams_get "replyip" params = Some replyIp ->
  replyIp <> "" ->
  awaiting_identity (start b (SearchParams params))
  /\ calls (start b (SearchParams params)) = [fetchUserData]
  /\ apiBaseUrl (app (start b (SearchParams params))) = replyIp.
Proof.
  intros Hget Hne. rewrite (start_with_replyip b params replyIp Hget Hne).
  repeat split.
Qed.

(** X7.  A failed identity fetch is fatal: from then on the error
    screen shows the authentication message with the gateway's reason,
    the navigation bar is hidden, no identity is ever loaded, and
    [fetchUserData] remains the only gateway call of the session,
    whatever happens next. *)
Theorem identity_failure_is_fatal
    (b : bool) (params : list (string * string)) (replyIp : string)
    (e : JsError) (pre evs : list Nav.Event) :
  URLSearchParams_get "replyip" params = Some replyIp ->
  replyIp <> "" ->
  Forall (fun ev => forall r, ev <> UserDataSettled r) pre ->
  let w := Nav.run (Nav.step (Nav.run (start b (SearchParams params)) pre)
                      (UserDataSettled (Rejected e))) evs in
  renderPage (app w) = ErrorDisplay ("Ошибка аутентификации: " ++ message e)
  /\ BottomNavBar.shown (app w) = false
  /\ user (app w) = None
  /\ calls w = [fetchUserData].
Proof.
  intros Hget Hne Hpre w.
  destruct (start_awaiting b params replyIp Hget Hne) as (Hw0 & Hc0 & _).
  pose proof (run_awaiting_identity pre _ Hw0 Hpre) as Hw1.
  pose proof (run_awaiting_calls pre _ Hw0 Hpre) as Hc1.
  set (w1 := Nav.run (start b (SearchParams params)) pre) in *.
  destruct Hw1 as (Hp & Hu & He & Ht & Hg).
  set (m := "Ошибка аутентификации: " ++ message e).
  assert (Hm : m <> "") by discriminate.
  set (w2 := Nav.step w1 (UserDataSettled (Rejected e))) in *.
  assert (He2 : Nav.error (app w2) = Some m).
  { subst w2. unfold Nav.step, handle. rewrite Hp. reflexivity. }
  assert (Hp2 : userDataPending w2 = false).
  { subst w2. unfold Nav.step, handle. rewrite Hp. reflexivity. }
  assert (Hu2 : user (app w2) = None).
  { subst w2. unfold Nav.step, handle. rewrite Hp. exact Hu. }
  assert (Hc2 : calls w2 = [fetchUserData]).
  { subst w2. unfold Nav.step, handle. rewrite Hp. cbn [app calls].
    rewrite (renderPage_loading (app w1) He Hu).
    rewrite (renderPage_error (on_user_data (Rejected e) (app w1)) m eq_refl Hm).
    unfold mount_effects. rewrite decide_False by discriminate.
    simpl. rewrite app_nil_r, Hc1. exact Hc0. }
  destruct (run_fatal_error evs w2 m He2 Hm Hp2) as (H1 & H2 & H3).
  subst w. repeat split.
  - now apply renderPage_error.
  - unfold BottomNavBar.shown. now rewrite H2, Hu2.
  - now rewrite H2.
  - now rewrite H3.
Qed.

Lemma identity_failure_is_fatal_witness :
  let w := Nav.run (Nav.step (Nav.run (start true
                       (SearchParams [("replyip", "https://api.example")])) [Back])
                      (UserDataSettled (Rejected (Error "API Error (401): no"))))
             [Nav.Retry; Navigate myGroups; SelectGroup "g1";
              UserDataSettled (Fulfilled (mkUser "7" "Ann" role_admin))] in
  renderPage (app w)
    = ErrorDisplay ("Ошибка аутентификации: " ++ "API Error (401): no")
  /\ BottomNavBar.shown (app w) = false
  /\ user (app w) = None
  /\ calls w = [fetchUserData].
Proof.
  refine (identity_failure_is_fatal true [("replyip", "https://api.example")]
            "https://api.example" (Error "API Error (401): no") [Back]
            [Nav.Retry; Navigate myGroups; SelectGroup "g1";
             UserDataSettled (Fulfilled (mkUser "7" "Ann" role_admin))]
            eq_refl _ _).
  - discriminate.
  - repeat constructor; discriminate.
Defined.

(** X8.  When reading the launch URL throws, the application shows
    the URL-parsing message with the exception's text, never loads an
    identity and never calls the gateway. *)
Theorem url_parse_failure_is_fatal (b : bool) (e : JsError) (evs : list Nav.Event) :
  let w := Nav.run (start b (SearchThrows e)) evs in
  renderPage (app w) = ErrorDisplay ("Ошибка парсинга URL: " ++ message e)
  /\ user (app w) = None
  /\ calls w = [].
Proof.
  intros w. subst w.
  set (m := "Ошибка парсинга URL: " ++ message e).
  assert (Hm : m <> "") by discriminate.
  destruct (run_fatal_error evs (start b (SearchThrows e)) m eq_refl Hm eq_refl)
    as (H1 & H2 & H3).
  repeat split.
  - now apply renderPage_error.
  - now rewrite H2.
  - now rewrite H3.
Qed.

(** ** Start-up: loading the identity *)

(** X9.  With a base address, the application calls [fetchUserData]
    once at start-up; until that promise settles it draws the loading
    screen without navigation bar and issues no other gateway call,
    whatever the user does.  When the identity arrives, a user's session
    fetches the tasks list, an admin's session (which opens on the
    task-creation form) fetches nothing. *)
Theorem identity_load_calls
    (b : bool) (params : list (string * string)) (replyIp : string)
    (u : User) (pre : list Nav.Event) :
  URLSearchParams_get "replyip" params = Some replyIp ->
  replyIp <> "" ->
  Forall (fun ev => forall r, ev <> UserDataSettled r) pre ->
  let waiting := Nav.run (start b (SearchParams params)) pre in
  let loaded := Nav.step waiting (UserDataSettled (Fulfilled u)) in
  renderPage (app waiting) = Loading
  /\ BottomNavBar.shown (app waiting) = false
  /\ calls waiting = [fetchUserData]
  /\ apiBaseUrl (app waiting) = replyIp
  /\ BottomNavBar.shown (app loaded) = true
  /\ calls loaded
     = match role u with
       | role_user => [fetchUserData; fetchUserTasks]
       | role_admin => [fetchUserData]
       end.
Proof.
  intros Hget Hne Hpre waiting loaded.
  destruct (start_awaiting b params replyIp Hget Hne) as (Hw0 & Hc0 & Hb0).
  pose proof (run_awaiting_identity pre _ Hw0 Hpre) as Hw1.
  pose proof (run_awaiting_calls pre _ Hw0 Hpre) as Hc1.
  assert (Hb1 : apiBaseUrl (app waiting) = replyIp).
  { subst waiting. clear -Hb0. revert Hb0.
    generalize (start b (SearchParams params)).
    induction pre as [|ev pre IH]; intros w0 Hb0; simpl; [exact Hb0|].
    apply IH. rewrite app_step.
    destruct ev as [page| |taskId|groupId|r| |fd|fd]; unfold handle; cbn [app];
      try exact Hb0.
    - now rewrite (proj2 (proj2 (handleBack_frame (webApp w0) (app w0)))).
    - destruct (renderPage (app w0)); exact Hb0.
    - destruct (renderPage (app w0)); exact Hb0.
    - destruct (userDataPending w0); [|exact Hb0].
      destruct r as [u0|e0]; simpl; [destruct (role u0)|]; exact Hb0.
    - destruct (renderPage (app w0)); exact Hb0.
    - destruct (renderPage (app w0)); exact Hb0. }
  fold waiting in Hw1, Hc1.
  destruct Hw1 as (Hp & Hu & He & Ht & Hg).
  pose proof (renderPage_loading (app waiting) He Hu) as Hv.
  assert (Happ : app loaded = on_user_data (Fulfilled u) (app waiting)).
  { subst loaded. unfold Nav.step, handle. rewrite Hp. reflexivity. }
  assert (Hrender : renderPage (app loaded) = mainPage (currentPage (app loaded))).
  { rewrite Happ. unfold renderPage. simpl.
    destruct (role u); simpl; rewrite He, Ht, Hg; reflexivity. }
  repeat split.
  - exact Hv.
  - unfold BottomNavBar.shown. now rewrite Hu.
  - now rewrite Hc1.
  - exact Hb1.
  - unfold BottomNavBar.shown. rewrite Happ. simpl.
    destruct (role u); simpl; rewrite He; reflexivity.
  - assert (Hcalls : calls loaded
        = (calls waiting ++ mount_effects Loading (renderPage (app loaded)))%list).
    { subst loaded. unfold Nav.step at 1, handle at 1. rewrite Hp, Hv.
      cbn [calls app]. unfold Nav.step, handle. rewrite Hp. reflexivity. }
    rewrite Hcalls, Hrender, Happ, Hc1, Hc0. simpl.
    destruct (role u); reflexivity.
Qed.

Lemma identity_load_calls_witness :
  let waiting := Nav.run (start false
                   (SearchParams [("replyip", "https://api.example")]))
                   [Navigate myGroups; SelectTask "t1"] in
  let loaded := Nav.step waiting
                  (UserDataSettled (Fulfilled (mkUser "8" "Bob" role_user))) in
  renderPage (app waiting) = Loading
  /\ BottomNavBar.shown (app waiting) = false
  /\ calls waiting = [fetchUserData]
  /\ apiBaseUrl (app waiting) = "https://api.example"
  /\ BottomNavBar.shown (app loaded) = true
  /\ calls loaded = [fetchUserData; fetchUserTasks].
Proof.
  refine (identity_load_calls false [("replyip", "https://api.example")]
            "https://api.example" (mkUser "8" "Bob" role_user)
            [Navigate myGroups; SelectTask "t1"] eq_refl _ _).
  - discriminate.
  - repeat constructor; discriminate.
Defined.

(** ** Drill-down *)

Lemma page_drawn_loaded (s : App) :
  (forall m, renderPage s <> ErrorDisplay m) ->
  renderPage s <> Loading ->
  truthy (Nav.error s) = false /\ user s <> None.
Proof.
  intros Hne Hnl.
  assert (Hv : ScreenPrecedence s (renderPage s)) by apply renderPage_sound.
  destruct Hv; try (split; assumption).
  - exfalso. now apply (Hne m).
  - contradiction.
Qed.

Lemma renderPage_loaded (s : App) :
  truthy (Nav.error s) = false ->
  user s <> None ->
  renderPage s
  = if_truthy (selectedTaskId s) PageTaskDetails
      (if_truthy (selectedGroupId s) PageGroupDetails (mainPage (currentPage s))).
Proof.
  intros He Hu. unfold renderPage. rewrite (if_truthy_false _ _ _ He).
  destruct (user s); [reflexivity|contradiction].
Qed.

Lemma renderPage_navigate (page : Page) (s : App) :
  truthy (Nav.error s) = false ->
  user s <> None ->
  renderPage (handleNavigate page s) = mainPage page.
Proof. intros He Hu. now rewrite renderPage_loaded. Qed.

(** X10.  Selecting a task on the tasks list draws its details page and
    issues [fetchTaskDetails] for it.  Going back from there, by the
    host's back button or by the page's own back link, clears the
    selection, draws the tasks list again and fetches the list anew. *)
Theorem task_drill_down_round_trip (w : World) (taskId : string) :
  renderPage (app w) = PageMyTasks ->
  taskId <> "" ->
  let w1 := Nav.step w (SelectTask taskId) in
  let w2 := Nav.step w1 Back in
  renderPage (app w1) = PageTaskDetails taskId
  /\ calls w1 = (calls w ++ [fetchTaskDetails taskId])%list
  /\ Nav.step w1 (Navigate myTasks) = w2
  /\ renderPage (app w2) = PageMyTasks
  /\ currentPage (app w2) = myTasks
  /\ selectedTaskId (app w2) = None
  /\ selectedGroupId (app w2) = None
  /\ calls w2 = (calls w1 ++ [fetchUserTasks])%list.
Proof.
  intros Hv Hid w1 w2.
  destruct (page_drawn_loaded (app w)) as [He Hu];
    [intros m; rewrite Hv; discriminate|rewrite Hv; discriminate|].
  assert (Happ1 : app w1 = handleSelectTask taskId (app w)).
  { subst w1. unfold Nav.step, handle. rewrite Hv. reflexivity. }
  assert (Hv1 : renderPage (app w1) = PageTaskDetails taskId).
  { rewrite Happ1, renderPage_loaded by assumption. simpl.
    destruct (String.eqb_spec taskId ""); [contradiction|reflexivity]. }
  assert (Hc1 : calls w1 = (calls w ++ [fetchTaskDetails taskId])%list).
  { subst w1. unfold Nav.step at 1. rewrite Hv.
    change (renderPage (app (handle (SelectTask taskId) w)))
      with (renderPage (app (Nav.step w (SelectTask taskId)))).
    rewrite Hv1. unfold handle. rewrite Hv. reflexivity. }
  assert (Hback : handleBack (webApp w1) (app w1) = handleNavigate myTasks (app w1)).
  { unfold handleBack. rewrite Happ1. simpl.
    destruct (String.eqb_spec taskId ""); [contradiction|reflexivity]. }
  assert (Hsame : Nav.step w1 (Navigate myTasks) = w2).
  { subst w2. unfold Nav.step, handle. cbn [app calls webApp userDataPending].
    now rewrite Hback. }
  assert (Hv2 : renderPage (app w2) = PageMyTasks).
  { rewrite <- Hsame. rewrite app_step. unfold handle; cbn [app].
    rewrite renderPage_navigate; [reflexivity| |]; rewrite Happ1; assumption. }
  repeat split; try assumption; try (rewrite <- Hsame; reflexivity).
  rewrite <- Hsame. unfold Nav.step at 1. cbn [calls].
  change (renderPage (app (handle (Navigate myTasks) w1)))
    with (renderPage (app (Nav.step w1 (Navigate myTasks)))).
  rewrite Hsame, Hv1, Hv2. reflexivity.
Qed.

Lemma task_drill_down_round_trip_witness :
  let w := Nav.run (start true (SearchParams [("replyip", "https://api.example")]))
             [UserDataSettled (Fulfilled (mkUser "8" "Bob" role_user))] in
  let w1 := Nav.step w (SelectTask "t1") in
  let w2 := Nav.step w1 Back in
  renderPage (app w1) = PageTaskDetails "t1"
  /\ calls w1 = (calls w ++ [fetchTaskDetails "t1"])%list
  /\ Nav.step w1 (Navigate myTasks) = w2
  /\ renderPage (app w2) = PageMyTasks
  /\ currentPage (app w2) = myTasks
  /\ selectedTaskId (app w2) = None
  /\ selectedGroupId (app w2) = None
  /\ calls w2 = (calls w1 ++ [fetchUserTasks])%list.
Proof.
  refine (task_drill_down_round_trip
            (Nav.run (start true (SearchParams [("replyip", "https://api.example")]))
               [UserDataSettled (Fulfilled (mkUser "8" "Bob" role_user))])
            "t1" eq_refl _).
  discriminate.
Defined.

(** X11.  Selecting a group, on the list of one's groups or on the
    admin's list of all groups, draws its details page and issues
    [fetchGroupDetails] for it.  Going back from there always lands on the
    list of one's own groups, which is fetched anew, also when the group
    was opened from the list of all groups. *)
Theorem group_drill_down_returns_to_my_groups (w : World) (groupId : string) :
  renderPage (app w) = PageMyGroups \/ renderPage (app w) = PageAdminAllGroups ->
  groupId <> "" ->
  let w1 := Nav.step w (SelectGroup groupId) in
  let w2 := Nav.step w1 Back in
  renderPage (app w1) = PageGroupDetails groupId
  /\ calls w1 = (calls w ++ [fetchGroupDetails groupId])%list
  /\ Nav.step w1 (Navigate myGroups) = w2
  /\ renderPage (app w2) = PageMyGroups
  /\ currentPage (app w2) = myGroups
  /\ selectedTaskId (app w2) = None
  /\ selectedGroupId (app w2) = None
  /\ calls w2 = (calls w1 ++ [fetchUserGroups])%list.
Proof.
  intros Hv Hid w1 w2.
  destruct (page_drawn_loaded (app w)) as [He Hu];
    [intros m; destruct Hv as [Hv|Hv]; rewrite Hv; discriminate
    |destruct Hv as [Hv|Hv]; rewrite Hv; discriminate|].
  destruct (list_page_no_selection (app w)) as [Hts _]; [tauto|].
  unfold task_selected in Hts.
  assert (Happ1 : app w1 = handleSelectGroup groupId (app w)).
  { subst w1. unfold Nav.step, handle. destruct Hv as [Hv|Hv]; rewrite Hv; reflexivity. }
  assert (Hv1 : renderPage (app w1) = PageGroupDetails groupId).
  { rewrite Happ1, renderPage_loaded by assumption. simpl.
    rewrite (if_truthy_false _ _ _ Hts). simpl.
    destruct (String.eqb_spec groupId ""); [contradiction|reflexivity]. }
  assert (Hc1 : calls w1 = (calls w ++ [fetchGroupDetails groupId])%list).
  { subst w1. unfold Nav.step at 1.
    change (renderPage (app (handle (SelectGroup groupId) w)))
      with (renderPage (app (Nav.step w (SelectGroup groupId)))).
    rewrite Hv1. unfold handle.
    destruct Hv as [Hv|Hv]; rewrite Hv; reflexivity. }
  assert (Hback : handleBack (webApp w1) (app w1) = handleNavigate myGroups (app w1)).
  { unfold handleBack. rewrite Happ1. simpl. rewrite Hts. simpl.
    destruct (String.eqb_spec groupId ""); [contradiction|reflexivity]. }
  assert (Hsame : Nav.step w1 (Navigate myGroups) = w2).
  { subst w2. unfold Nav.step, handle. cbn [app calls webApp userDataPending].
    now rewrite Hback. }
  assert (Hv2 : renderPage (app w2) = PageMyGroups).
  { rewrite <- Hsame. rewrite app_step. unfold handle; cbn [app].
    rewrite renderPage_navigate; [reflexivity| |]; rewrite Happ1; assumption. }
  repeat split; try assumption; try (rewrite <- Hsame; reflexivity).
  rewrite <- Hsame. unfold Nav.step at 1. cbn [calls].
  change (renderPage (app (handle (Navigate myGroups) w1)))
    with (renderPage (app (Nav.step w1 (Navigate myGroups)))).
  rewrite Hsame, Hv1, Hv2. reflexivity.
Qed.

Lemma group_drill_down_returns_to_my_groups_witness :
  let w := Nav.run (start true (SearchParams [("replyip", "https://api.example")]))
             [UserDataSettled (Fulfilled (mkUser "7" "Ann" role_admin));
              Navigate adminAllGroups] in
  let w1 := Nav.step w (SelectGroup "g1") in
  let w2 := Nav.step w1 Back in
  renderPage (app w1) = PageGroupDetails "g1"
  /\ calls w1 = (calls w ++ [fetchGroupDetails "g1"])%list
  /\ Nav.step w1 (Navigate myGroups) = w2
  /\ renderPage (app w2) = PageMyGroups
  /\ currentPage (app w2) = myGroups
  /\ selectedTaskId (app w2) = None
  /\ selectedGroupId (app w2) = None
  /\ calls w2 = (calls w1 ++ [fetchUserGroups])%list.
Proof.
  refine (group_drill_down_returns_to_my_groups
            (Nav.run (start true (SearchParams [("replyip", "https://api.example")]))
               [UserDataSettled (Fulfilled (mkUser "7" "Ann" role_admin));
                Navigate adminAllGroups])
            "g1" _ _).
  - right. reflexivity.
  - discriminate.
Defined.

(** ** Reachable states *)

Lemma start_consistent (b : bool) (search : Search) :
  Reach.consistent (start b search).
Proof.
  unfold Reach.consistent, start, identity_effect, init_effect, task_selected,
    group_selected.
  destruct search as [params|e]; simpl.
  - destruct (URLSearchParams_get "replyip" params) as [ip|]; simpl.
    + destruct (String.eqb ip "") eqn:Hip; simpl; rewrite ?Hip; simpl;
        repeat split; try discriminate; try congruence.
    + repeat split; try discriminate; congruence.
  - repeat split; try discriminate; congruence.
Qed.

Lemma step_consistent (w : World) (ev : Nav.Event) :
  Reach.consistent w -> Reach.consistent (Nav.step w ev).
Proof.
  unfold Reach.consistent, task_selected, group_selected.
  intros (Hpend & Huser & Hsel).
  assert (Hlist : renderPage (app w) = PageMyTasks \/ renderPage (app w) = PageMyGroups
                  \/ renderPage (app w) = PageAdminAllGroups ->
                  user (app w) <> None).
  { intros Hl. apply (page_drawn_loaded (app w)).
    - intros m. destruct Hl as [->|[->| ->]]; discriminate.
    - destruct Hl as [->|[->| ->]]; discriminate. }
  assert (Hkeep : (userDataPending w = true ->
                   Nav.error (app w) = None /\ user (app w) = None)
                  /\ (user (app w) <> None -> Nav.error (app w) = None)
                  /\ (truthy (selectedTaskId (app w))
                      || truthy (selectedGroupId (app w)) = true ->
                      user (app w) <> None)) by auto.
  destruct ev as [page| |taskId|groupId|r| |fd|fd];
    unfold Nav.step, handle; cbn [app userDataPending].
  - simpl. split; [exact Hpend|]. split; [exact Huser|]. discriminate.
  - destruct (handleBack_frame (webApp w) (app w)) as (-> & -> & _).
    split; [exact Hpend|]. split; [exact Huser|].
    unfold handleBack.
    destruct (truthy (selectedTaskId (app w)) || truthy (selectedGroupId (app w))) eqn:Hs.
    + simpl. discriminate.
    + destruct (webApp w); simpl; [discriminate|]. rewrite Hs. discriminate.
  - destruct (renderPage (app w)) eqn:Hv; cbn [app userDataPending]; try exact Hkeep.
    simpl. split; [exact Hpend|]. split; [exact Huser|]. intros _. auto.
  - destruct (renderPage (app w)) eqn:Hv; cbn [app userDataPending]; try exact Hkeep;
      simpl; (split; [exact Hpend|]); (split; [exact Huser|]); intros _; auto.
  - destruct (userDataPending w) eqn:Hp; cbn [app userDataPending];
      [|rewrite Hp; exact Hkeep].
    destruct (Hpend eq_refl) as [He Hu].
    destruct r as [u|e]; simpl.
    + destruct (role u); simpl; (split; [discriminate|]);
        (split; [intros _; exact He|]); intros _; discriminate.
    + split; [discriminate|]. split; [intros Hc; contradiction|].
      intros Hc. now apply Hsel.
  - exact Hkeep.
  - destruct (renderPage (app w)); exact Hkeep.
  - destruct (renderPage (app w)); exact Hkeep.
Qed.

Lemma run_consistent (evs : list Nav.Event) (w : World) :
  Reach.consistent w -> Reach.consistent (Nav.run w evs).
Proof.
  revert w. induction evs as [|ev evs IH]; intros w Hw; simpl; [exact Hw|].
  apply IH. now apply step_consistent.
Qed.

(** X12.  In every state the application reaches, and with the host
    bridge present, the host's back button is visible exactly when a
    details page is on screen; without the bridge it is never touched. *)
Theorem back_button_visible_on_details_pages
    (b : bool) (search : Search) (evs : list Nav.Event) :
  let s := app (Nav.run (start b search) evs) in
  (BackButton.visible true s = true
   <-> (exists t, renderPage s = PageTaskDetails t)
       \/ (exists g, renderPage s = PageGroupDetails g))
  /\ BackButton.effect false s = [].
Proof.
  intros s. split; [|reflexivity].
  pose proof (run_consistent evs _ (start_consistent b search)) as (_ & Huser & Hsel).
  fold s in Huser, Hsel.
  unfold BackButton.visible, BackButton.effect.
  unfold task_selected, group_selected in Hsel.
  split.
  - intros Hvis.
    destruct (truthy (selectedTaskId s) || truthy (selectedGroupId s)) eqn:Hs;
      [|discriminate].
    pose proof (Hsel eq_refl) as Hu. pose proof (Huser Hu) as He.
    rewrite renderPage_loaded; [|now rewrite He|exact Hu].
    destruct (truthy (selectedTaskId s)) eqn:Ht.
    + destruct (if_truthy_true (selectedTaskId s) PageTaskDetails
                  (if_truthy (selectedGroupId s) PageGroupDetails
                     (mainPage (currentPage s))) Ht) as (t & _ & _ & ->).
      left. now exists t.
    + rewrite (if_truthy_false _ _ _ Ht). simpl in Hs.
      destruct (if_truthy_true (selectedGroupId s) PageGroupDetails
                  (mainPage (currentPage s)) Hs) as (g & _ & _ & ->).
      right. now exists g.
  - intros Hv.
    assert (Hscreen : ScreenPrecedence s (renderPage s)) by apply renderPage_sound.
    assert (Hact : truthy (selectedTaskId s) || truthy (selectedGroupId s) = true).
    { destruct Hv as [[t Hv]|[g Hv]]; rewrite Hv in Hscreen; inversion Hscreen; subst.
      - match goal with Hs : selectedTaskId s = Some _ |- _ => rewrite Hs end.
        rewrite (proj2 (truthy_Some_nonempty t)) by assumption. reflexivity.
      - destruct (currentPage s); discriminate.
      - match goal with Hs : selectedGroupId s = Some _ |- _ => rewrite Hs end.
        rewrite (proj2 (truthy_Some_nonempty g)) by assumption.
        apply orb_true_r.
      - destruct (currentPage s); discriminate. }
    rewrite Hact. reflexivity.
Qed.

(** X13.  The navigation bar is drawn exactly when a page is on screen,
    that is, on neither the error nor the loading screen.  It has two
    buttons for a user (tasks, groups) and five for an admin (the same
    two, then create task, create group, all groups).  Each button leads
    to a tab: clicking it draws that tab's own case of [renderPage]'s
    switch, never the fallback for the details pages, and different
    buttons draw different pages. *)
Theorem nav_bar_buttons_draw_their_tabs (r : UserRole) (s : App) (p q : Page) :
  p ∈ BottomNavBar.itemsToShow r ->
  q ∈ BottomNavBar.itemsToShow r ->
  BottomNavBar.shown s = true ->
  (forall m, renderPage s <> ErrorDisplay m)
  /\ renderPage s <> Loading
  /\ renderPage (handleNavigate p s) = mainPage p
  /\ p <> taskDetails /\ p <> groupDetails
  /\ BottomNavBar.shown (handleNavigate p s) = true
  /\ (renderPage (handleNavigate p s) = renderPage (handleNavigate q s) -> p = q)
  /\ BottomNavBar.itemsToShow role_user ⊆ BottomNavBar.itemsToShow r
  /\ BottomNavBar.itemsToShow role_user = [myTasks; myGroups]
  /\ BottomNavBar.itemsToShow role_admin
     = [myTasks; myGroups; adminCreateTask; adminCreateGroup; adminAllGroups]
  /\ length (BottomNavBar.itemsToShow role_user) = 2
  /\ length (BottomNavBar.itemsToShow role_admin) = 5.
Proof.
  intros Hp Hq Hshown.
  assert (Hs : truthy (Nav.error s) = false /\ user s <> None).
  { unfold BottomNavBar.shown in Hshown. destruct (user s); [|discriminate].
    split; [|discriminate]. now destruct (truthy (Nav.error s)). }
  destruct Hs as [He Hu].
  assert (Htab : forall x, x ∈ BottomNavBar.itemsToShow r ->
            x <> taskDetails /\ x <> groupDetails).
  { intros x Hx. apply list_elem_of_In in Hx.
    destruct r; simpl in Hx; intuition (subst; discriminate). }
  repeat split.
  - intros m. unfold renderPage. rewrite (if_truthy_false _ _ _ He).
    destruct (user s); [|contradiction].
    destruct (selectedTaskId s) as [t|]; simpl;
      [destruct (String.eqb t "")|];
      try discriminate;
      (destruct (selectedGroupId s) as [g|]; simpl;
       [destruct (String.eqb g "")|]; try discriminate;
       destruct (currentPage s); discriminate).
  - unfold renderPage. rewrite (if_truthy_false _ _ _ He).
    destruct (user s); [|contradiction].
    destruct (selectedTaskId s) as [t|]; simpl;
      [destruct (String.eqb t "")|];
      try discriminate;
      (destruct (selectedGroupId s) as [g|]; simpl;
       [destruct (String.eqb g "")|]; try discriminate;
       destruct (currentPage s); discriminate).
  - now apply renderPage_navigate.
  - apply (Htab p Hp).
  - apply (Htab p Hp).
  - unfold BottomNavBar.shown. simpl. destruct (user s); [|contradiction].
    now rewrite He.
  - rewrite !renderPage_navigate by assumption.
    destruct (Htab p Hp) as [Hp1 Hp2], (Htab q Hq) as [Hq1 Hq2].
    destruct p, q; simpl; intros Heq; try reflexivity; try discriminate; contradiction.
  - intros x Hx. destruct r; simpl; [exact Hx|].
    apply list_elem_of_In. apply list_elem_of_In in Hx. simpl in *. tauto.
Qed.

Lemma nav_bar_buttons_draw_their_tabs_witness :
  let s := app (Nav.run (start true (SearchParams [("replyip", "https://api.example")]))
                  [UserDataSettled (Fulfilled (mkUser "7" "Ann" role_admin));
                   Navigate adminAllGroups; SelectGroup "g1"]) in
  (forall m, renderPage s <> ErrorDisplay m)
  /\ renderPage s <> Loading
  /\ renderPage (handleNavigate adminCreateGroup s) = mainPage adminCreateGroup
  /\ adminCreateGroup <> taskDetails /\ adminCreateGroup <> groupDetails
  /\ BottomNavBar.shown (handleNavigate adminCreateGroup s) = true
  /\ (renderPage (handleNavigate adminCreateGroup s)
      = renderPage (handleNavigate myTasks s) -> adminCreateGroup = myTasks)
  /\ BottomNavBar.itemsToShow role_user ⊆ BottomNavBar.itemsToShow role_admin
  /\ BottomNavBar.itemsToShow role_user = [myTasks; myGroups]
  /\ BottomNavBar.itemsToShow role_admin
     = [myTasks; myGroups; adminCreateTask; adminCreateGroup; adminAllGroups]
  /\ length (BottomNavBar.itemsToShow role_user) = 2
  /\ length (BottomNavBar.itemsToShow role_admin) = 5.
Proof.
  refine (nav_bar_buttons_draw_their_tabs role_admin _ adminCreateGroup myTasks _ _ _).
  - apply list_elem_of_In. simpl. auto.
  - apply list_elem_of_In. simpl. auto.
  - reflexivity.
Defined.

(** ** Roles *)

Lemma user_page_view (s : App) :
  Reach.user_page (currentPage s) = true ->
  Reach.admin_view (renderPage s) = false
  /\ Forall (fun c => Request.admin_method c = false) (page_fetch (renderPage s)).
Proof.
  intros Hp. unfold renderPage.
  destruct (Nav.error s) as [m|]; simpl; [destruct (String.eqb m "")|];
    try (split; [reflexivity|constructor]);
    (destruct (user s); [|split; [reflexivity|constructor]]);
    (destruct (selectedTaskId s) as [t|]; simpl; [destruct (String.eqb t "")|]);
    try (split; [reflexivity|repeat constructor]);
    (destruct (selectedGroupId s) as [g|]; simpl; [destruct (String.eqb g "")|]);
    try (split; [reflexivity|repeat constructor]);
    destruct (currentPage s); try discriminate; split; try reflexivity;
    repeat constructor.
Qed.

Lemma step_user_pages (w : World) (ev : Nav.Event) :
  userDataPending w = false ->
  Reach.user_page (currentPage (app w)) = true ->
  Forall (fun c => Request.admin_method c = false) (calls w) ->
  (forall p, ev = Navigate p -> p ∈ BottomNavBar.itemsToShow role_user) ->
  userDataPending (Nav.step w ev) = false
  /\ Reach.user_page (currentPage (app (Nav.step w ev))) = true
  /\ Forall (fun c => Request.admin_method c = false) (calls (Nav.step w ev)).
Proof.
  intros Hp Hpage Hcalls Hev.
  destruct (user_page_view (app w) Hpage) as [Hview Hfetch].
  assert (Hpage' : Reach.user_page (currentPage (app (handle ev w))) = true).
  { destruct ev as [page| |taskId|groupId|r| |fd|fd]; unfold handle;
      rewrite ?Hp; cbn [app]; try exact Hpage.
    - specialize (Hev page eq_refl). apply list_elem_of_In in Hev.
      simpl in Hev. destruct Hev as [<-|[<-|[]]]; reflexivity.
    - unfold handleBack.
      destruct (truthy (selectedTaskId (app w)) || truthy (selectedGroupId (app w))).
      + destruct (truthy (selectedTaskId (app w))); reflexivity.
      + destruct (webApp w); [reflexivity|exact Hpage].
    - destruct (renderPage (app w)); cbn [app]; try exact Hpage; reflexivity.
    - destruct (renderPage (app w)); cbn [app]; try exact Hpage; reflexivity.
    - destruct (renderPage (app w)); exact Hpage.
    - destruct (renderPage (app w)); exact Hpage. }
  assert (Hcalls' : Forall (fun c => Request.admin_method c = false)
                      (calls (handle ev w))).
  { destruct ev as [page| |taskId|groupId|r| |fd|fd]; unfold handle;
      rewrite ?Hp; cbn [calls]; try exact Hcalls.
    - destruct (renderPage (app w)); exact Hcalls.
    - destruct (renderPage (app w)); exact Hcalls.
    - apply Forall_app. split; assumption.
    - destruct (renderPage (app w)); try exact Hcalls; discriminate.
    - destruct (renderPage (app w)); try exact Hcalls; discriminate. }
  assert (Hp' : userDataPending (handle ev w) = false).
  { destruct ev as [page| |taskId|groupId|r| |fd|fd]; unfold handle;
      rewrite ?Hp; cbn [userDataPending]; try reflexivity; try exact Hp;
      destruct (renderPage (app w)); cbn [userDataPending]; try reflexivity; exact Hp. }
  unfold Nav.step; cbn [app calls userDataPending].
  split; [exact Hp'|]. split; [exact Hpage'|].
  apply Forall_app. split; [exact Hcalls'|].
  unfold mount_effects. case_decide; [constructor|].
  apply (user_page_view (app (handle ev w)) Hpage').
Qed.

(** X14.  In a session whose identity has the role [user], and in
    which navigation goes through the two tabs the bar offers that role
    (which is also where the back links lead), no admin page is ever on
    screen and none of the admin methods of the gateway ([createTask],
    [createGroup], [fetchAllGroups]) is ever called. *)
Theorem user_role_never_reaches_admin
    (b : bool) (params : list (string * string)) (replyIp : string)
    (u : User) (pre evs : list Nav.Event) :
  URLSearchParams_get "replyip" params = Some replyIp ->
  replyIp <> "" ->
  role u = role_user ->
  Forall (fun ev => forall r, ev <> UserDataSettled r) pre ->
  Forall (fun ev => forall p, ev = Navigate p ->
                    p ∈ BottomNavBar.itemsToShow (role u)) evs ->
  let w := Nav.run (Nav.step (Nav.run (start b (SearchParams params)) pre)
                      (UserDataSettled (Fulfilled u))) evs in
  Reach.admin_view (renderPage (app w)) = false
  /\ Forall (fun c => Request.admin_method c = false) (calls w).
Proof.
  intros Hget Hne Hrole Hpre Hevs w.
  destruct (start_awaiting b params replyIp Hget Hne) as (Hw0 & Hc0 & _).
  pose proof (run_awaiting_identity pre _ Hw0 Hpre) as Hw1.
  pose proof (run_awaiting_calls pre _ Hw0 Hpre) as Hc1.
  set (w1 := Nav.run (start b (SearchParams params)) pre) in *.
  destruct Hw1 as (Hp & Hu & He & Ht & Hg).
  set (w2 := Nav.step w1 (UserDataSettled (Fulfilled u))) in *.
  assert (Happ : app w2 = set_user_and_page u myTasks (app w1)).
  { subst w2. unfold Nav.step, handle. rewrite Hp. cbn [app]. simpl.
    now rewrite Hrole. }
  assert (Hp2 : userDataPending w2 = false).
  { subst w2. unfold Nav.step, handle. now rewrite Hp. }
  assert (Hpage2 : Reach.user_page (currentPage (app w2)) = true)
    by now rewrite Happ.
  assert (Hcalls2 : Forall (fun c => Request.admin_method c = false) (calls w2)).
  { subst w2. unfold Nav.step; cbn [calls]. apply Forall_app. split.
    - unfold handle. rewrite Hp. cbn [calls]. rewrite Hc1, Hc0.
      repeat constructor.
    - unfold mount_effects. case_decide; [constructor|].
      apply user_page_view. exact Hpage2. }
  rewrite Hrole in Hevs. subst w. clearbody w2. clear -Hp2 Hpage2 Hcalls2 Hevs.
  revert w2 Hp2 Hpage2 Hcalls2.
  induction evs as [|ev evs IH]; intros w2 Hp2 Hpage2 Hcalls2; simpl.
  - split; [|exact Hcalls2]. now apply user_page_view.
  - inversion Hevs as [|ev' evs' Hev Hrest]; subst.
    destruct (step_user_pages w2 ev Hp2 Hpage2 Hcalls2 Hev) as (Ha & Hb & Hc).
    now apply IH.
Qed.

Lemma user_role_never_reaches_admin_witness :
  let w := Nav.run (Nav.step (Nav.run (start true
                       (SearchParams [("replyip", "https://api.example")])) [Back])
                      (UserDataSettled (Fulfilled (mkUser "8" "Bob" role_user))))
             [Navigate myGroups; SelectGroup "g1"; Back; Nav.Retry;
              SubmitTask [("title", "t"); ("project", "p"); ("group", "g");
                          ("assignee", "a")];
              Navigate myTasks; SelectTask "t1"] in
  Reach.admin_view (renderPage (app w)) = false
  /\ Forall (fun c => Request.admin_method c = false) (calls w).
Proof.
  refine (user_role_never_reaches_admin true [("replyip", "https://api.example")]
            "https://api.example" (mkUser "8" "Bob" role_user) [Back]
            [Navigate myGroups; SelectGroup "g1"; Back; Nav.Retry;
             SubmitTask [("title", "t"); ("project", "p"); ("group", "g");
                         ("assignee", "a")];
             Navigate myTasks; SelectTask "t1"]
            eq_refl _ eq_refl _ _).
  - discriminate.
  - repeat constructor; discriminate.
  - repeat (constructor;
            [intros p Hp; try discriminate; injection Hp as <-;
             apply list_elem_of_In; simpl; auto|]).
    constructor.
Defined.

(** ** The creation forms *)

Lemma handleSubmit_complete (formData : list (string * string)) (s : PageAdminCreateTask.State) :
  (forall f, f ∈ mandatory -> truthy (fromEntries formData !! f) = true) ->
  handleSubmit formData s
  = ({| isLoading := true; PageAdminCreateTask.error := None |},
     [createTask (fromEntries formData)]).
Proof.
  intros Hall. unfold handleSubmit.
  rewrite !Hall by (apply list_elem_of_In; simpl; auto). reflexivity.
Qed.

Lemma truthy_true_inv (v : option string) :
  truthy v = true <-> exists x, v = Some x /\ x <> "".
Proof.
  split.
  - destruct v as [x|]; [|discriminate]. intros Hx. exists x. split; [reflexivity|].
    now apply truthy_Some_nonempty.
  - intros (x & -> & Hx). now apply truthy_Some_nonempty.
Qed.

(** X15.  [handleSubmit] of the task form issues a gateway call
    exactly when each of [title], [project], [group], [assignee] has a
    non-empty value in the form; the call is then one [createTask] whose
    payload holds, for every field name, the value of the last form entry
    of that name.  Otherwise it issues nothing. *)
Theorem task_form_calls_gateway_iff_complete
    (formData : list (string * string)) (s : PageAdminCreateTask.State) :
  ((forall f, f ∈ mandatory -> exists v, last_value f formData = Some v /\ v <> "")
   <-> handleSubmit formData s
       = ({| isLoading := true; PageAdminCreateTask.error := None |},
          [createTask (fromEntries formData)]))
  /\ (snd (handleSubmit formData s) = []
      \/ snd (handleSubmit formData s) = [createTask (fromEntries formData)])
  /\ (forall k, fromEntries formData !! k = last_value k formData).
Proof.
  split; [|split].
  - split.
    + intros Hall. apply handleSubmit_complete. intros f Hf.
      rewrite fromEntries_lookup. apply truthy_true_inv. now apply Hall.
    + intros Hsub f Hf.
      rewrite <- fromEntries_lookup. apply truthy_true_inv.
      destruct (truthy (fromEntries formData !! f)) eqn:Hfalsy; [reflexivity|].
      exfalso. unfold handleSubmit in Hsub.
      apply list_elem_of_In in Hf. simpl in Hf.
      destruct Hf as [<-|[<-|[<-|[<-|[]]]]]; rewrite Hfalsy in Hsub; simpl in Hsub;
        rewrite ?orb_true_r in Hsub; discriminate.
  - unfold handleSubmit.
    destruct (negb _ || negb _ || negb _ || negb _); simpl; auto.
  - intros k. apply fromEntries_lookup.
Qed.

(** X16.  The whole submission of a complete task form on the
    running application: the form stays on screen while [createTask] is
    the one call added; when the call is rejected the form shows the
    gateway's message as it is and nothing navigates; when it is fulfilled
    [onTaskCreated] runs, which draws the tasks list and fetches it. *)
Theorem task_creation_flow
    (w : World) (formData : list (string * string)) (e : JsError) (v : option Json) :
  renderPage (app w) = Nav.PageAdminCreateTask ->
  (forall f, f ∈ mandatory -> exists x, last_value f formData = Some x /\ x <> "") ->
  let submitted := fst (handleSubmit formData PageAdminCreateTask.initial) in
  let w1 := Nav.step w (SubmitTask formData) in
  let w2 := Nav.step w1 (Navigate myTasks) in
  isLoading submitted = true
  /\ app w1 = app w
  /\ calls w1 = (calls w ++ [createTask (fromEntries formData)])%list
  /\ handleSubmit_settled (Rejected e) submitted
     = ({| isLoading := false; PageAdminCreateTask.error := Some (message e) |}, false)
  /\ handleSubmit_settled (Fulfilled v) submitted
     = ({| isLoading := false; PageAdminCreateTask.error := None |}, true)
  /\ renderPage (app w2) = PageMyTasks
  /\ calls w2 = (calls w1 ++ [fetchUserTasks])%list.
Proof.
  intros Hv Hall submitted w1 w2.
  assert (Hsub : forall s0, handleSubmit formData s0
            = ({| isLoading := true; PageAdminCreateTask.error := None |},
               [createTask (fromEntries formData)])).
  { intros s0. apply handleSubmit_complete. intros f Hf.
    rewrite fromEntries_lookup. apply truthy_true_inv. now apply Hall. }
  destruct (page_drawn_loaded (app w)) as [He Hu];
    [intros m; rewrite Hv; discriminate|rewrite Hv; discriminate|].
  assert (Happ1 : app w1 = app w).
  { subst w1. unfold Nav.step, handle. rewrite Hv. reflexivity. }
  assert (Hc1 : calls w1 = (calls w ++ [createTask (fromEntries formData)])%list).
  { subst w1. unfold Nav.step, handle. rewrite Hv. cbn [app calls].
    rewrite Hsub, Hv. unfold mount_effects. rewrite decide_True by reflexivity.
    simpl. now rewrite app_nil_r. }
  assert (Hv2 : renderPage (app w2) = PageMyTasks).
  { subst w2. rewrite app_step. unfold handle; cbn [app].
    rewrite renderPage_navigate; [reflexivity| |]; rewrite Happ1; assumption. }
  subst submitted. rewrite Hsub. cbn [fst].
  repeat split; try assumption.
  unfold w2 at 1. unfold Nav.step at 1. cbn [calls].
  change (renderPage (app (handle (Navigate myTasks) w1)))
    with (renderPage (app w2)).
  rewrite Hv2, Happ1, Hv. reflexivity.
Qed.

Lemma task_creation_flow_witness :
  let w := Nav.run (start true (SearchParams [("replyip", "https://api.example")]))
             [UserDataSettled (Fulfilled (mkUser "7" "Ann" role_admin))] in
  let formData :=
    [("title", "Report"); ("project", "Core"); ("group", "g1"); ("assignee", "42")] in
  let e := Error "API Error (500): boom" in
  let submitted := fst (handleSubmit formData PageAdminCreateTask.initial) in
  let w1 := Nav.step w (SubmitTask formData) in
  let w2 := Nav.step w1 (Navigate myTasks) in
  isLoading submitted = true
  /\ app w1 = app w
  /\ calls w1 = (calls w ++ [createTask (fromEntries formData)])%list
  /\ handleSubmit_settled (Rejected e) submitted
     = ({| isLoading := false; PageAdminCreateTask.error := Some (message e) |}, false)
  /\ handleSubmit_settled (Fulfilled None) submitted
     = ({| isLoading := false; PageAdminCreateTask.error := None |}, true)
  /\ renderPage (app w2) = PageMyTasks
  /\ calls w2 = (calls w1 ++ [fetchUserTasks])%list.
Proof.
  refine (task_creation_flow
            (Nav.run (start true (SearchParams [("replyip", "https://api.example")]))
               [UserDataSettled (Fulfilled (mkUser "7" "Ann" role_admin))])
            [("title", "Report"); ("project", "Core"); ("group", "g1");
             ("assignee", "42")]
            (Error "API Error (500): boom") None eq_refl _).
  intros f Hf. apply list_elem_of_In in Hf. simpl in Hf.
  destruct Hf as [<-|[<-|[<-|[<-|[]]]]]; eexists; (split; [reflexivity|discriminate]).
Defined.

(** X17.  The group form on the running application: a submission
    whose first [name] entry is missing or the empty string is blocked
    with the name-required message and calls nothing; any other
    submission, with or without description and avatar, issues one
    [createGroup] carrying the form data unchanged.  [onGroupCreated] then
    draws the list of all groups and fetches it. *)
Theorem group_creation_flow
    (w : World) (formData : list (string * FormDataEntryValue))
    (s : PageAdminCreateGroup.State) :
  renderPage (app w) = Nav.PageAdminCreateGroup ->
  let blocked :=
    match PageAdminCreateGroup.FormData_get "name" formData with
    | None | Some (FormString "") => true
    | _ => false
    end in
  let w1 := Nav.step w (SubmitGroup formData) in
  let w2 := Nav.step w1 (Navigate adminAllGroups) in
  PageAdminCreateGroup.handleSubmit formData s
  = (if blocked
     then ({| PageAdminCreateGroup.isLoading := false;
              PageAdminCreateGroup.error :=
                Some PageAdminCreateGroup.name_required_message |}, [])
     else ({| PageAdminCreateGroup.isLoading := true;
              PageAdminCreateGroup.error := None |}, [createGroup formData]))
  /\ app w1 = app w
  /\ calls w1 = (calls w ++ (if blocked then [] else [createGroup formData]))%list
  /\ renderPage (app w2) = PageAdminAllGroups
  /\ calls w2 = (calls w1 ++ [fetchAllGroups])%list.
Proof.
  intros Hv blocked w1 w2.
  assert (Hsub : forall s0, PageAdminCreateGroup.handleSubmit formData s0
    = (if blocked
       then ({| PageAdminCreateGroup.isLoading := false;
                PageAdminCreateGroup.error :=
                  Some PageAdminCreateGroup.name_required_message |}, [])
       else ({| PageAdminCreateGroup.isLoading := true;
                PageAdminCreateGroup.error := None |}, [createGroup formData]))).
  { intros s0. subst blocked. unfold PageAdminCreateGroup.handleSubmit.
    destruct (PageAdminCreateGroup.FormData_get "name" formData) as [[x|x]|];
      simpl; try reflexivity.
    destruct (String.eqb_spec x "") as [->|Hx]; simpl; [reflexivity|].
    destruct x; [contradiction|reflexivity]. }
  destruct (page_drawn_loaded (app w)) as [He Hu];
    [intros m; rewrite Hv; discriminate|rewrite Hv; discriminate|].
  assert (Happ1 : app w1 = app w).
  { subst w1. unfold Nav.step, handle. rewrite Hv. reflexivity. }
  assert (Hc1 : calls w1
     = (calls w ++ (if blocked then [] else [createGroup formData]))%list).
  { subst w1. unfold Nav.step, handle. rewrite Hv. cbn [app calls].
    rewrite Hsub, Hv. unfold mount_effects. rewrite decide_True by reflexivity.
    rewrite app_nil_r. destruct blocked; reflexivity. }
  assert (Hv2 : renderPage (app w2) = PageAdminAllGroups).
  { subst w2. rewrite app_step. unfold handle; cbn [app].
    rewrite renderPage_navigate; [reflexivity| |]; rewrite Happ1; assumption. }
  repeat split; try assumption; [apply Hsub|].
  unfold w2 at 1. unfold Nav.step at 1. cbn [calls].
  change (renderPage (app (handle (Navigate adminAllGroups) w1)))
    with (renderPage (app w2)).
  rewrite Hv2, Happ1, Hv. reflexivity.
Qed.

Lemma group_creation_flow_witness :
  let w := Nav.run (start true (SearchParams [("replyip", "https://api.example")]))
             [UserDataSettled (Fulfilled (mkUser "7" "Ann" role_admin));
              Navigate adminCreateGroup] in
  let formData := [("name", FormString "Team A"); ("avatar", FormFile "a.png")] in
  let w1 := Nav.step w (SubmitGroup formData) in
  let w2 := Nav.step w1 (Navigate adminAllGroups) in
  PageAdminCreateGroup.handleSubmit formData
    {| PageAdminCreateGroup.isLoading := false; PageAdminCreateGroup.error := None |}
  = ({| PageAdminCreateGroup.isLoading := true;
        PageAdminCreateGroup.error := None |}, [createGroup formData])
  /\ app w1 = app w
  /\ calls w1 = (calls w ++ [createGroup formData])%list
  /\ renderPage (app w2) = PageAdminAllGroups
  /\ calls w2 = (calls w1 ++ [fetchAllGroups])%list.
Proof.
  exact (group_creation_flow
           (Nav.run (start true (SearchParams [("replyip", "https://api.example")]))
              [UserDataSettled (Fulfilled (mkUser "7" "Ann" role_admin));
               Navigate adminCreateGroup])
           [("name", FormString "Team A"); ("avatar", FormFile "a.png")]
           {| PageAdminCreateGroup.isLoading := false;
              PageAdminCreateGroup.error := None |}
           eq_refl).
Defined.

(** ** Screen controllers: what is drawn *)

(** X18.  A data page is never blank: it always draws the error, the
    loading indicator or its content.  The loading indicator is drawn
    only alone, the retry button (part of the error display) only for a
    non-empty error; error and content may be drawn together. *)
Theorem page_never_blank {T : Type} (s : Controller.State T) :
  (PageRender.error_display (PageRender.render s) <> None
   \/ PageRender.loading (PageRender.render s) = true
   \/ PageRender.content (PageRender.render s) <> None)
  /\ (PageRender.loading (PageRender.render s) = true <->
      PageRender.error_display (PageRender.render s) = None
      /\ PageRender.content (PageRender.render s) = None)
  /\ (forall m, PageRender.error_display (PageRender.render s) = Some m ->
      m <> "" /\ Controller.error s = Some m).
Proof.
  unfold PageRender.render; cbn [PageRender.error_display PageRender.loading
                                   PageRender.content].
  destruct (truthy (Controller.error s)) eqn:Ht.
  - destruct (if_truthy_true (Controller.error s) Some None Ht) as (m & Hm & Hne & ->).
    split; [left; discriminate|]. split.
    + destruct (data s); split; try discriminate; intros [H _]; discriminate.
    + intros m' [= <-]. auto.
  - rewrite (if_truthy_false _ _ _ Ht). split; [|split].
    + destruct (data s); [right; right; discriminate|right; left; reflexivity].
    + destruct (data s); simpl; split; auto; try discriminate.
      intros [_ H]; discriminate.
    + intros m' H. discriminate.
Qed.



(** X20.  A fetch rejected with an empty message leaves a page that
    has no data on the loading indicator, with nothing in flight for that
    fetch and no retry button: [Retry] does nothing. *)
Theorem empty_rejection_keeps_loading
    {T : Type} (guarded : bool) (s : Controller.State T) (n : nat) (k : string)
    (e : JsError) :
  pending s !! n = Some k ->
  data s = None ->
  message e = "" ->
  let s' := Controller.step guarded s (Settle n (Rejected e)) in
  PageRender.render s'
    = {| PageRender.error_display := None; PageRender.loading := true;
         PageRender.content := None |}
  /\ pending s' !! n = None
  /\ Controller.step guarded s' Controller.Retry = s'.
Proof.
  intros Hn Hd Hm s'.
  assert (Hs' : s' = on_rejected n e s).
  { subst s'. unfold Controller.step. now rewrite Hn. }
  rewrite Hs'. unfold on_rejected, PageRender.render, Controller.step.
  cbn [data Controller.error pending key next]. rewrite Hm, Hd. simpl.
  split; [reflexivity|]. split; [apply lookup_delete_eq|reflexivity].
Qed.

Lemma empty_rejection_keeps_loading_witness :
  let s' := Controller.step false (PageMyTasks.mount "https://api.example")
              (Settle 0 (Rejected (Error ""))) in
  PageRender.render s'
    = {| PageRender.error_display := None; PageRender.loading := true;
         PageRender.content := None |}
  /\ pending s' !! 0 = None
  /\ Controller.step false s' Controller.Retry = s'.
Proof.
  exact (empty_rejection_keeps_loading false (PageMyTasks.mount "https://api.example")
           0 "https://api.example" (Error "") eq_refl eq_refl eq_refl).
Defined.

(** X21.  A details page mounted with an empty id fetches nothing and
    draws the loading indicator; no retry, no completion and no render
    with the empty id changes that.  Mounted with a non-empty id, or a
    list page in any case, it has exactly one fetch in flight, for its
    key. *)
Theorem mount_fetches_once_unless_empty_id
    {T : Type} (guarded : bool) (k : string) (evs : list (Controller.Event T)) :
  Forall (fun ev => forall k', ev = Render k' -> k' = "") evs ->
  PageRender.render (Controller.mount (T := T) guarded k)
    = {| PageRender.error_display := None; PageRender.loading := true;
         PageRender.content := None |}
  /\ (guarded = false \/ k <> "" ->
      pending (Controller.mount (T := T) guarded k) = {[ 0 := k ]})
  /\ (guarded = true -> k = "" ->
      Controller.run guarded (Controller.mount (T := T) guarded k) evs
      = {| key := ""; data := None; Controller.error := None;
           pending := ∅; next := 0 |}).
Proof.
  intros Hevs. split; [|split].
  - unfold Controller.mount, load. cbn [key].
    destruct (guarded && negb (truthy (Some k))); reflexivity.
  - intros Hk. unfold Controller.mount, load. cbn [key pending next].
    destruct Hk as [-> | Hk]; [reflexivity|].
    rewrite (proj2 (truthy_Some_nonempty k) Hk). simpl.
    now rewrite andb_false_r.
  - intros -> ->. unfold Controller.mount, load. simpl.
    induction evs as [|ev evs IH]; [reflexivity|].
    inversion Hevs as [|ev' evs' Hev Hrest]; subst. simpl.
    destruct ev as [k'| |n r]; simpl.
    + rewrite (Hev k' eq_refl). simpl. now apply IH.
    + now apply IH.
    + rewrite lookup_empty. now apply IH.
Qed.

Lemma mount_fetches_once_unless_empty_id_witness :
  PageRender.render (PageTaskDetails.mount "")
    = {| PageRender.error_display := None; PageRender.loading := true;
         PageRender.content := None |}
  /\ (true = false \/ "" <> "" -> pending (PageTaskDetails.mount "") = {[ 0 := "" ]})
  /\ (true = true -> "" = "" ->
      PageTaskDetails.run (PageTaskDetails.mount "")
        [Controller.Retry; Settle 0 (Fulfilled (Some detailsA)); Render ""]
      = {| key := ""; data := None; Controller.error := None;
           pending := ∅; next := 0 |}).
Proof.
  refine (mount_fetches_once_unless_empty_id true ""
            [Controller.Retry; Settle 0 (Fulfilled (Some detailsA)); Render ""] _).
  repeat (constructor; [intros k' Hk'; try discriminate; now injection Hk' as <-|]).
  constructor.
Defined.

(** ** Witnesses for the lemmas above that double as properties *)

Lemma empty_replyip_is_fatal_without_calls_witness :
  let w := Nav.run (start true (SearchParams [("replyip", ""); ("replyip", "x")]))
             [Back; Nav.Retry; SelectTask "t1"] in
  renderPage (app w) = ErrorDisplay missing_replyip_message /\ calls w = [].
Proof.
  exact (empty_replyip_is_fatal_without_calls true [("replyip", ""); ("replyip", "x")]
           [Back; Nav.Retry; SelectTask "t1"] eq_refl).
Defined.

Lemma details_key_stable_witness : "t1" = "t1".
Proof.
  exact (details_key_stable
           (Nav.run (start true (SearchParams [("replyip", "https://api.example")]))
              [UserDataSettled (Fulfilled (mkUser "8" "Bob" role_user));
               SelectTask "t1"])
           (SelectTask "t2") "t1" "t1" eq_refl eq_refl).
Defined.

Lemma reachable_error_nonempty_witness :
  let w := Nav.run (start true (SearchParams [("replyip", "https://api.example")]))
             [UserDataSettled (Rejected (Error "API Error (401): no")); Back] in
  "Ошибка аутентификации: API Error (401): no" <> ""
  /\ renderPage (app w) = ErrorDisplay "Ошибка аутентификации: API Error (401): no".
Proof.
  exact (reachable_error_nonempty true
           (SearchParams [("replyip", "https://api.example")])
           [UserDataSettled (Rejected (Error "API Error (401): no")); Back]
           "Ошибка аутентификации: API Error (401): no" eq_refl).
Defined.
